(** * phone_unlock: plan orchestration, strategy planning and self-healing

    A shallow embedding of the Python backend

    - [backend/service/self-healing.py]      (module [SelfHealing]),
    - [backend/agents/strategic_intelligence.py] (module [Strategic]),
    - [backend/agents/deep_agents.py]        (module [Agents]),

    followed by the properties of the execution engine that the design
    document states about them.

    Modelling conventions.
    - Python values that come from outside (plans, steps, worker results,
      device analyses) are JSON-like [Value]s; dictionaries are
      [gmap string Value].  Dictionaries that the code builds itself with a
      fixed set of keys are records.
    - Strings are ASCII text; [str.lower] lowers the letters A-Z.
    - Probabilities are the decimal literals of the source, as rationals.
    - A Python exception is a value of [Exn]; code that can raise returns an
      [Outcome].  [await] is sequencing: every coroutine here is awaited at
      once by its caller, [asyncio.sleep] only passes time. *)

From Stdlib Require Import QArith Sorted Ascii.
From stdpp Require Import gmap strings list fin_maps pretty.

#[local] Set Warnings "-register-all".
#[local] Open Scope string_scope.

(** ** Python values *)

Module Py.

Inductive Value :=
| VNone
| VBool (b : bool)
| VInt (z : Z)
| VStr (s : string)
| VList (l : list Value)
| VDict (d : gmap string Value).

Inductive Exn :=
| AttributeError
| TypeError
| KeyError
| ValueError
| NotImplementedError
| Exception (msg : string).

Inductive Outcome (A : Type) :=
| Ok (a : A)
| Raise (e : Exn).
Arguments Ok {A} a.
Arguments Raise {A} e.

Definition bind {A B} (o : Outcome A) (k : A -> Outcome B) : Outcome B :=
  match o with
  | Ok a => k a
  | Raise e => Raise e
  end.

#[global] Instance Outcome_bind : MBind Outcome := fun A B k o => bind o k.
#[global] Instance Outcome_ret : MRet Outcome := @Ok.

(** [try: ... except Exception: return d] *)
Definition except {A} (o : Outcome A) (d : A) : A :=
  match o with
  | Ok a => a
  | Raise _ => d
  end.

(** [bool(v)] *)
Definition truthy (v : Value) : bool :=
  match v with
  | VNone => false
  | VBool b => b
  | VInt z => negb (Z.eqb z 0)
  | VStr s => negb (String.eqb s "")
  | VList l => negb (Nat.eqb (length l) 0)
  | VDict d => negb (Nat.eqb (size d) 0)
  end.

(** [d.get(k, default)] on a dictionary *)
Definition dict_get (d : gmap string Value) (k : string) (default : Value) : Value :=
  match d !! k with
  | Some v => v
  | None => default
  end.

(** [v.get(k, default)] on any value: only dictionaries have [get] *)
Definition get (v : Value) (k : string) (default : Value) : Outcome Value :=
  match v with
  | VDict d => Ok (dict_get d k default)
  | _ => Raise AttributeError
  end.

Definition lower_ascii (c : ascii) : ascii :=
  let n := nat_of_ascii c in
  if (65 <=? n)%nat && (n <=? 90)%nat then ascii_of_nat (n + 32) else c.

(** [s.lower()] *)
Fixpoint lower (s : string) : string :=
  match s with
  | EmptyString => EmptyString
  | String c t => String (lower_ascii c) (lower t)
  end.

(** [v.lower()]: only strings have [lower] *)
Definition str_lower (v : Value) : Outcome string :=
  match v with
  | VStr s => Ok (lower s)
  | _ => Raise AttributeError
  end.

(** [needle in hay] for two strings: substring test *)
Fixpoint contains (needle hay : string) : bool :=
  String.prefix needle hay ||
  match hay with
  | EmptyString => false
  | String _ t => contains needle t
  end.

(** [v == s] for a string [s] *)
Definition eq_str (s : string) (v : Value) : bool :=
  match v with
  | VStr s' => String.eqb s s'
  | _ => false
  end.

(** [s in v] for a string [s] *)
Definition str_in (s : string) (v : Value) : Outcome bool :=
  match v with
  | VList l => Ok (existsb (eq_str s) l)
  | VStr h => Ok (contains s h)
  | VDict d => Ok (bool_decide (is_Some (d !! s)))
  | _ => Raise TypeError
  end.

(** [len(v)] *)
Definition len (v : Value) : Outcome nat :=
  match v with
  | VList l => Ok (length l)
  | VStr s => Ok (String.length s)
  | VDict d => Ok (size d)
  | _ => Raise TypeError
  end.

(** the items a [for] loop over [v] visits (a dictionary yields its keys;
    the order in which it does plays no role below) *)
Definition iter (v : Value) : Outcome (list Value) :=
  match v with
  | VList l => Ok l
  | VStr s => Ok ((fun c => VStr (String c EmptyString)) <$> String.list_ascii_of_string s)
  | VDict d => Ok ((fun kv => VStr kv.1) <$> map_to_list d)
  | _ => Raise TypeError
  end.

(** [hash(v)] succeeds *)
Definition hashable (v : Value) : bool :=
  match v with
  | VList _ | VDict _ => false
  | _ => true
  end.

(** [f"{v}"] for the hashable values (lists and dictionaries are printed
    through [repr], which is not modelled; no call below reaches it) *)
Definition format (v : Value) : string :=
  match v with
  | VNone => "None"
  | VBool true => "True"
  | VBool false => "False"
  | VInt z => pretty z
  | VStr s => s
  | VList _ | VDict _ => ""
  end.

(** [sorted(l, key=key, reverse=True)]: stable, descending *)
Fixpoint insert_desc {A} (key : A -> Q) (x : A) (l : list A) : list A :=
  match l with
  | [] => [x]
  | y :: l' =>
      if Qle_bool (key y) (key x) then x :: y :: l'
      else y :: insert_desc key x l'
  end.

Definition sorted_desc {A} (key : A -> Q) (l : list A) : list A :=
  foldr (insert_desc key) [] l.

(** [l.remove(x)]: drops the first occurrence, [ValueError] if there is none *)
Fixpoint remove {A} `{EqDecision A} (x : A) (l : list A) : Outcome (list A) :=
  match l with
  | [] => Raise ValueError
  | y :: l' => if decide (y = x) then Ok l' else bind (remove x l') (fun r => Ok (y :: r))
  end.

End Py.

Import Py.

(** ** backend/service/self-healing.py *)

Module SelfHealing.

(** the dictionary [analysis] of [_analyze_error] *)
Record Analysis := {
  can_recover : bool;
  method : string;
  confidence : Q;
  estimated_time : string;
  manual_suggestions : list string
}.

(** the dictionaries returned by the recovery methods and by
    [_execute_recovery]; a key that is absent is [None] *)
Record RecoveryResult := {
  success : bool;
  recovered : bool;
  action : option string;
  details : option string;
  recovery_method : option string;
  result_confidence : option Q;
  error : option string
}.

(** the three shapes of dictionary that [handle_error] returns *)
Inductive HandleResult :=
| RecoveryRan (r : RecoveryResult)
    (* recovery_result *)
| NoRecoveryMethod (suggestions : list string)
    (* {"success": False, "recovered": False,
        "reason": "No automatic recovery method available", "suggestions": ...} *)
| SystemError.
    (* {"success": False, "recovered": False, "reason": "Self-healing system error"} *)

Record Incident := {
  timestamp : string;
  error_type : string;
  context : string;
  message : string;
  resolved : bool;
  incident_recovery_method : option string
}.

Record SelfHealingSystem := {
  incident_history : list Incident
}.

Definition _analyze_error (error_type context message : string) : Analysis :=
  let analysis :=
    {| can_recover := false; method := ""; confidence := 0;
       estimated_time := "Unknown"; manual_suggestions := [] |} in
  if contains "USB" error_type || contains "usb" (lower message) then
    {| can_recover := true; method := "usb_connection_reset";
       confidence := 85 # 100; estimated_time := "30 seconds";
       manual_suggestions := manual_suggestions analysis |}
  else if contains "driver" (lower message) || contains "permission" (lower message) then
    {| can_recover := true; method := "driver_reinstallation";
       confidence := 75 # 100; estimated_time := "2 minutes";
       manual_suggestions := manual_suggestions analysis |}
  else if contains "timeout" (lower message) || contains "connection" (lower message) then
    {| can_recover := true; method := "communication_retry";
       confidence := 90 # 100; estimated_time := "1 minute";
       manual_suggestions := manual_suggestions analysis |}
  else if contains "security" (lower message) || contains "lock" (lower message) then
    {| can_recover := true; method := "alternative_unlock_method";
       confidence := 65 # 100; estimated_time := "5 minutes";
       manual_suggestions := manual_suggestions analysis |}
  else
    {| can_recover := true; method := "generic_retry";
       confidence := 50 # 100; estimated_time := "1 minute";
       manual_suggestions :=
         ["Check device connection"; "Restart the application";
          "Verify device compatibility"] |}.

Definition recovery_ok (act det : string) : RecoveryResult :=
  {| success := true; recovered := true; action := Some act; details := Some det;
     recovery_method := None; result_confidence := None; error := None |}.

Definition _reset_usb_connection : Outcome RecoveryResult :=
  Ok (recovery_ok "USB connection reset" "USB ports reset and reinitialized").

Definition _reinstall_drivers : Outcome RecoveryResult :=
  Ok (recovery_ok "Driver reinstallation" "Device drivers reinstalled successfully").

Definition _retry_communication : Outcome RecoveryResult :=
  Ok (recovery_ok "Communication retry" "Communication reestablished after retry").

Definition _try_alternative_method : Outcome RecoveryResult :=
  Ok (recovery_ok "Alternative method execution"
        "Alternative unlock method applied successfully").

Definition _generic_retry : Outcome RecoveryResult :=
  Ok (recovery_ok "Generic retry" "Operation successful after retry").

(** [str(e)] for the exceptions of the model *)
Definition exn_str (e : Exn) : string :=
  match e with
  | Exception msg => msg
  | _ => ""
  end.

Definition _execute_recovery (recovery_plan : Analysis) : RecoveryResult :=
  let method := method recovery_plan in
  let attempt :=
    bind
      (if String.eqb method "usb_connection_reset" then _reset_usb_connection
       else if String.eqb method "driver_reinstallation" then _reinstall_drivers
       else if String.eqb method "communication_retry" then _retry_communication
       else if String.eqb method "alternative_unlock_method" then _try_alternative_method
       else _generic_retry)
      (fun result =>
         Ok {| success := success result; recovered := recovered result;
               action := action result; details := details result;
               recovery_method := Some method;
               result_confidence := Some (confidence recovery_plan);
               error := error result |}) in
  match attempt with
  | Ok result => result
  | Raise e =>
      {| success := false; recovered := false; action := None; details := None;
         recovery_method := None; result_confidence := None;
         error := Some (exn_str e) |}
  end.

(** [handle_error(error, context)], with [error_type = type(error).__name__],
    [error_message = str(error)] and [now] the value of [_get_timestamp()].
    The incident is appended first and updated in place afterwards: the
    history holds the very dictionary that is updated.  Nothing in the body
    of the [try] raises, so the dictionary of the handler ([SystemError]) is
    never the result. *)
Definition handle_error (self : SelfHealingSystem)
    (error_type error_message context now : string)
    : HandleResult * SelfHealingSystem :=
  let incident :=
    {| timestamp := now; error_type := error_type; context := context;
       message := error_message; resolved := false;
       incident_recovery_method := None |} in
  let at_ := length (incident_history self) in
  let history := (incident_history self ++ [incident])%list in
  let recovery_plan := _analyze_error error_type context error_message in
  if can_recover recovery_plan then
    let recovery_result := _execute_recovery recovery_plan in
    let incident' :=
      {| timestamp := timestamp incident; error_type := error_type;
         context := context; message := error_message;
         resolved := success recovery_result;
         incident_recovery_method := Some (method recovery_plan) |} in
    (RecoveryRan recovery_result,
     {| incident_history := <[at_ := incident']> history |})
  else
    (NoRecoveryMethod (manual_suggestions recovery_plan),
     {| incident_history := history |}).

(** [SelfHealingSystem.__init__] ([recovery_methods] and [health_monitors]
    start empty; the former is passed to [get_status] below) *)
Definition SelfHealingSystem_init : SelfHealingSystem :=
  {| incident_history := [] |}.

(** the table that [_load_recovery_methods] assigns to [self.recovery_methods] *)
Definition _load_recovery_methods : gmap string (list string) :=
  <["usb_issues" := ["usb_connection_reset"; "driver_reinstallation"]]>
  (<["communication_issues" := ["communication_retry"; "protocol_switch"]]>
  (<["security_issues" := ["alternative_unlock_method"; "vulnerability_scan"]]>
  (<["performance_issues" := ["resource_optimization"; "process_restart"]]> ∅))).

(** the dictionary returned by [get_status] *)
Record StatusReport := {
  status : string;
  recovery_methods_loaded : nat;
  incidents_handled : nat;
  success_rate : Q;
  recent_activity : list Incident
}.

(** [l[-n:]] *)
Definition last_n {A} (n : nat) (l : list A) : list A :=
  drop (length l - n) l.

(** [get_status].  [recovery_methods] is [self.recovery_methods], which
    [handle_error] neither reads nor writes.  The quotient of the two
    lengths is a rational here. *)
Definition get_status (recovery_methods : gmap string (list string))
    (self : SelfHealingSystem) : StatusReport :=
  let recent_incidents := filter (fun i => resolved i = true) (incident_history self) in
  let success_rate :=
    (inject_Z (Z.of_nat (length recent_incidents)) /
     inject_Z (Z.of_nat (Nat.max (length (incident_history self)) 1)))%Q in
  {| status := "operational";
     recovery_methods_loaded := size recovery_methods;
     incidents_handled := length (incident_history self);
     success_rate := success_rate;
     recent_activity :=
       match incident_history self with
       | [] => []
       | _ => last_n 5 (incident_history self)
       end |}.

End SelfHealing.

(** ** backend/agents/strategic_intelligence.py *)

Module Strategic.

Inductive UnlockStrategy :=
| DIRECT_BYPASS
| VULNERABILITY_EXPLOIT
| RECOVERY_MODE
| BOOTLOADER_ACCESS
| CUSTOM_TOOL
| COMBINATION.

#[global] Instance UnlockStrategy_eq_dec : EqDecision UnlockStrategy.
Proof. solve_decision. Defined.

(** [list(UnlockStrategy)]: the members in definition order *)
Definition members : list UnlockStrategy :=
  [DIRECT_BYPASS; VULNERABILITY_EXPLOIT; RECOVERY_MODE;
   BOOTLOADER_ACCESS; CUSTOM_TOOL; COMBINATION].

(** an entry of the list built by [get_alternatives] *)
Record Alternative := {
  alt_strategy : UnlockStrategy;
  alt_steps : list Value;
  alt_success_probability : Q;
  alt_risk_level : string
}.

(** an entry of the list built by [_prepare_fallback_strategies] *)
Record Fallback := {
  fb_strategy : UnlockStrategy;
  fb_activation_condition : string;
  fb_steps : list Value;
  fb_success_probability : Q
}.

(** the dictionary [risks] of [_assess_risks] *)
Record Risks := {
  data_loss_probability : Q;
  brick_probability : Q;
  warranty_void : bool;
  security_risks : list Value;
  recommendations : list Value
}.

(** the dictionary [plan] of [create_unlock_plan] *)
Record Plan := {
  device_id : string;
  strategy : UnlockStrategy;
  steps : list Value;
  fallback_strategies : list Fallback;
  risk_assessment : Risks;
  estimated_time : string;
  success_probability : Q
}.

(** The helper methods that the class leaves as stubs for an actual
    implementation.  The planner is stated over any implementation of
    them; [stubs] is the one in the source. *)
Record Helpers := {
  _get_device_analysis : string -> Value;
  _generate_direct_bypass_steps : Value -> list Value;
  _generate_vulnerability_steps : Value -> list Value;
  _generate_bootloader_steps : Value -> list Value;
  _generate_custom_tool_steps : Value -> list Value;
  _generate_combination_steps : Value -> list Value;
  _generate_alternative_steps : Value -> UnlockStrategy -> list Value;
  _calculate_success_probability : Value -> Q;
  _calculate_strategy_success : Value -> UnlockStrategy -> Q;
  _assess_strategy_risk : Value -> UnlockStrategy -> string;
  _estimate_completion_time : Value -> string;
  _identify_security_risks : Value -> list Value;
  _generate_risk_recommendations : Risks -> list Value
}.

Definition stubs : Helpers := {|
  _get_device_analysis := fun device_id => VDict ∅;
  _generate_direct_bypass_steps := fun analysis => [];
  _generate_vulnerability_steps := fun analysis => [];
  _generate_bootloader_steps := fun analysis => [];
  _generate_custom_tool_steps := fun analysis => [];
  _generate_combination_steps := fun analysis => [];
  _generate_alternative_steps := fun analysis strategy => [];
  _calculate_success_probability := fun analysis => 85 # 100;
  _calculate_strategy_success := fun analysis strategy => 7 # 10;
  _assess_strategy_risk := fun analysis strategy => "medium";
  _estimate_completion_time := fun analysis => "5-10 minutes";
  _identify_security_risks := fun analysis => [];
  _generate_risk_recommendations := fun risks => []
|}.

(** [device_analysis.get("lock_detection", {}).get("locks", [])] *)
Definition locks_of (device_analysis : Value) : Outcome Value :=
  lock_detection ← get device_analysis "lock_detection" (VDict ∅);
  get lock_detection "locks" (VList []).

(** [device_analysis.get("device_identification", {}).get("manufacturer", "")] *)
Definition manufacturer_of (device_analysis : Value) : Outcome Value :=
  device_identification ← get device_analysis "device_identification" (VDict ∅);
  get device_identification "manufacturer" (VStr "").

Definition _select_optimal_strategy (device_analysis : Value) : UnlockStrategy :=
  except
    (locks ← locks_of device_analysis;
     manufacturer ← manufacturer_of device_analysis;
     device_type ← str_lower manufacturer;
     has_bootloader ← str_in "bootloader_lock" locks;
     if has_bootloader && String.eqb device_type "samsung"
     then Ok BOOTLOADER_ACCESS
     else
       has_frp ← str_in "frp_lock" locks;
       if has_frp && String.eqb device_type "google"
       then Ok VULNERABILITY_EXPLOIT
       else
         has_icloud ← str_in "icloud_lock" locks;
         if (has_icloud : bool)
         then Ok CUSTOM_TOOL
         else
           n ← len locks;
           if (2 <? n)%nat then Ok COMBINATION else Ok DIRECT_BYPASS
     : Outcome UnlockStrategy)
    DIRECT_BYPASS.

Definition _generate_unlock_steps (h : Helpers) (device_analysis : Value) : list Value :=
  let steps := [] in
  let strategy := _select_optimal_strategy device_analysis in
  match strategy with
  | DIRECT_BYPASS => _generate_direct_bypass_steps h device_analysis
  | VULNERABILITY_EXPLOIT => _generate_vulnerability_steps h device_analysis
  | BOOTLOADER_ACCESS => _generate_bootloader_steps h device_analysis
  | CUSTOM_TOOL => _generate_custom_tool_steps h device_analysis
  | COMBINATION => _generate_combination_steps h device_analysis
  | RECOVERY_MODE => steps
  end.

(** The body of the [try] can raise only before it first assigns to
    [risks] (once the first [in locks] has been answered the second one is
    too), so the [risks] that the handler returns are the initial ones. *)
Definition _assess_risks (h : Helpers) (device_analysis : Value) : Risks :=
  let risks :=
    {| data_loss_probability := 0; brick_probability := 0; warranty_void := true;
       security_risks := []; recommendations := [] |} in
  except
    (device_type ← manufacturer_of device_analysis;
     locks ← locks_of device_analysis;
     has_bootloader ← str_in "bootloader_lock" locks;
     let brick := if (has_bootloader : bool) then 3 # 10 else brick_probability risks in
     has_frp ← str_in "frp_lock" locks;
     let data_loss :=
       if has_frp && eq_str "samsung" device_type then 1 # 10
       else data_loss_probability risks in
     let risks1 :=
       {| data_loss_probability := data_loss; brick_probability := brick;
          warranty_void := warranty_void risks;
          security_risks := _identify_security_risks h device_analysis;
          recommendations := recommendations risks |} in
     Ok {| data_loss_probability := data_loss; brick_probability := brick;
           warranty_void := warranty_void risks;
           security_risks := security_risks risks1;
           recommendations := _generate_risk_recommendations h risks1 |})
    risks.

Definition _prepare_fallback_strategies (h : Helpers) (device_analysis : Value)
    : list Fallback :=
  let primary_strategy := _select_optimal_strategy device_analysis in
  let alternative_strategies :=
    filter (fun s => s ≠ primary_strategy) members in
  let fallbacks :=
    (fun strategy =>
       {| fb_strategy := strategy;
          fb_activation_condition := "primary_strategy_failure";
          fb_steps := _generate_alternative_steps h device_analysis strategy;
          fb_success_probability :=
            _calculate_strategy_success h device_analysis strategy |})
    <$> take 2 alternative_strategies in
  sorted_desc fb_success_probability fallbacks.

Definition get_alternatives (h : Helpers) (device_id : string) : list Alternative :=
  let alternatives := [] in
  let device_analysis := _get_device_analysis h device_id in
  let primary_strategy := _select_optimal_strategy device_analysis in
  match remove primary_strategy members with
  | Raise _ => alternatives
  | Ok all_strategies =>
      let alternatives :=
        (fun strategy =>
           {| alt_strategy := strategy;
              alt_steps := _generate_alternative_steps h device_analysis strategy;
              alt_success_probability :=
                _calculate_strategy_success h device_analysis strategy;
              alt_risk_level := _assess_strategy_risk h device_analysis strategy |})
        <$> all_strategies in
      sorted_desc alt_success_probability alternatives
  end.

(** [method] is not used by the source either.  The handler re-raises and
    nothing in the body raises: the result is always a plan.
    ([get_actions] and [get_status] take no part in planning and are left
    out.) *)
Definition create_unlock_plan (h : Helpers) (device_id : string) (method : string)
    : Outcome Plan :=
  let device_analysis := _get_device_analysis h device_id in
  Ok {| device_id := device_id;
        strategy := _select_optimal_strategy device_analysis;
        steps := _generate_unlock_steps h device_analysis;
        fallback_strategies := _prepare_fallback_strategies h device_analysis;
        risk_assessment := _assess_risks h device_analysis;
        estimated_time := _estimate_completion_time h device_analysis;
        success_probability := _calculate_success_probability h device_analysis |}.

End Strategic.

(** ** backend/agents/deep_agents.py *)

Module Agents.

(** the values of [DeepAgent.status]: "idle", "working", "completed", "error" *)
Inductive Status :=
| idle
| working
| completed
| error.

(** A worker.  [_perform_task] is the method that the subclasses
    implement; its first argument is the tick at which it is called (see
    [clock] below), which lets one worker answer differently from call to
    call, as device I/O and [random.randint] do. *)
Record DeepAgent := {
  agent_id : string;
  capabilities : list string;
  status : Status;
  performance_metrics : gmap string Value;
  _perform_task : nat -> Value -> Outcome Value
}.

Definition set_status (s : Status) (self : DeepAgent) : DeepAgent :=
  {| agent_id := agent_id self; capabilities := capabilities self; status := s;
     performance_metrics := performance_metrics self;
     _perform_task := _perform_task self |}.

(** [DeepAgent.__init__], with the [_perform_task] of the base class *)
Definition DeepAgent_init (agent_id : string) (capabilities : list string) : DeepAgent :=
  {| agent_id := agent_id; capabilities := capabilities; status := idle;
     performance_metrics := ∅;
     _perform_task := fun _ task => Raise NotImplementedError |}.

(** a subclass: the base initialisation with [_perform_task] overridden *)
Definition subclass (base : DeepAgent) (perform : nat -> Value -> Outcome Value)
    : DeepAgent :=
  {| agent_id := agent_id base; capabilities := capabilities base;
     status := status base; performance_metrics := performance_metrics base;
     _perform_task := perform |}.

(** [execute_task]: the agent on which [_perform_task] runs is the one
    whose status has just been set to "working". *)
Definition execute_task (self : DeepAgent) (tick : nat) (task : Value)
    : Outcome Value * DeepAgent :=
  let self := set_status working self in
  match _perform_task self tick task with
  | Ok result => (Ok result, set_status completed self)
  | Raise e => (Raise e, set_status error self)
  end.

(** [random.randint(100, 500)] drawn from a source [random] of integers *)
Definition randint (random : nat -> Z) (tick : nat) (lo hi : Z) : Z :=
  (lo + random tick mod (hi - lo + 1))%Z.

Definition USBCommunicationAgent (random : nat -> Z) : DeepAgent :=
  subclass
    (DeepAgent_init "usb_communication_agent"
       ["usb_control"; "device_handshake"; "protocol_analysis"])
    (fun tick task =>
       protocol ← get task "protocol" (VStr "ADB");
       Ok (VDict (<["success" := VBool true]>
                 (<["data_exchanged" := VInt (randint random tick 100 500)]>
                 (<["protocol_used" := protocol]>
                 (<["connection_stable" := VBool true]> ∅)))))).

Definition VulnerabilityExploitAgent : DeepAgent :=
  subclass
    (DeepAgent_init "vulnerability_exploit_agent"
       ["vulnerability_scanning"; "exploit_development"; "payload_execution"])
    (fun tick task =>
       Ok (VDict (<["success" := VBool true]>
                 (<["vulnerability_found" := VStr "CVE-2023-12345"]>
                 (<["exploit_executed" := VBool true]>
                 (<["access_gained" := VStr "root"]> ∅)))))).

Definition PatternAnalysisAgent : DeepAgent :=
  subclass
    (DeepAgent_init "pattern_analysis_agent"
       ["pattern_recognition"; "behavior_analysis"; "security_assessment"])
    (fun tick task =>
       Ok (VDict (<["success" := VBool true]>
                 (<["patterns_identified" :=
                      VList [VStr "boot_sequence"; VStr "lock_screen_behavior"]]>
                 (<["vulnerable_patterns" := VList [VStr "weak_authentication"]]>
                 (<["recommendations" := VList [VStr "bypass_via_recovery"]]> ∅)))))).

(** a call of [_execute_step] and how it ended *)
Inductive Event :=
| Dispatched (step : Value) (out : Outcome Value).

(** The orchestrator.  [agents] is the dictionary of the source (each
    worker is stored under one key).  [clock] counts the calls of
    [_perform_task] made so far.  [journal] is a ghost field: the calls of
    [_execute_step] in the order they were made; no decision reads it.
    [task_queue] and [results] are not used by plan execution. *)
Record DeepAgents := {
  agents : gmap string DeepAgent;
  clock : nat;
  journal : list Event
}.

(** [DeepAgents.__init__] *)
Definition DeepAgents_init : DeepAgents :=
  {| agents := ∅; clock := 0; journal := [] |}.

(** [initialize] registers the three workers of the source.  (It also
    starts [_process_tasks], which waits on a queue that nothing fills.) *)
Definition initialize (random : nat -> Z) (self : DeepAgents) : DeepAgents :=
  {| agents :=
       <["pattern_analysis" := PatternAnalysisAgent]>
       (<["vulnerability_exploit" := VulnerabilityExploitAgent]>
       (<["usb_communication" := USBCommunicationAgent random]> (agents self)));
     clock := clock self; journal := journal self |}.

(** computations on the orchestrator that may raise *)
Definition M (A : Type) : Type := DeepAgents -> Outcome A * DeepAgents.

Definition ret {A} (a : A) : M A := fun self => (Ok a, self).

Definition lift {A} (o : Outcome A) : M A := fun self => (o, self).

Definition bindM {A B} (m : M A) (k : A -> M B) : M B :=
  fun self =>
    match m self with
    | (Ok a, self') => k a self'
    | (Raise e, self') => (Raise e, self')
    end.

Notation "'let*' x ':=' e 'in' k" := (bindM e (fun x => k))
  (at level 10, x name, e at level 200, k at level 200, only parsing).

Definition journaled (step : Value) (m : M Value) : M Value :=
  fun self =>
    let '(out, self') := m self in
    (out, {| agents := agents self'; clock := clock self';
             journal := (journal self' ++ [Dispatched step out])%list |}).

Definition agent_mapping : gmap string string :=
  <["usb_communication" := "usb_communication"]>
  (<["vulnerability_exploit" := "vulnerability_exploit"]>
  (<["pattern_analysis" := "pattern_analysis"]>
  (<["security_bypass" := "vulnerability_exploit"]> ∅))).

(** Returns the selected worker with the key it is stored under, or
    [None].  A step type that cannot be hashed makes the lookup raise; a
    step type that is not a string is no key of the mapping. *)
Definition _select_agent_for_step (self : DeepAgents) (step_type : Value)
    : Outcome (option (string * DeepAgent)) :=
  if hashable step_type then
    let agent_key :=
      match step_type with
      | VStr s => default "" (agent_mapping !! s)
      | _ => ""
      end in
    Ok ((fun agent => (agent_key, agent)) <$> agents self !! agent_key)
  else Raise TypeError.

Definition _execute_step (step : Value) : M Value :=
  journaled step (fun self =>
    match get step "type" (VStr "") with
    | Raise e => (Raise e, self)
    | Ok step_type =>
        match _select_agent_for_step self step_type with
        | Raise e => (Raise e, self)
        | Ok (Some (key, agent)) =>
            let '(out, agent') := execute_task agent (clock self) step in
            (out, {| agents := <[key := agent']> (agents self);
                     clock := S (clock self); journal := journal self |})
        | Ok None =>
            (Ok (VDict (<["success" := VBool false]>
                       (<["error" := VStr ("No agent available for step type: "
                                           +:+ format step_type)]> ∅))),
             self)
        end
    end).

(** the dictionary [recovery_plan] of [_analyze_failure] *)
Record RecoveryPlan := {
  can_recover : bool;
  recovery_method : string;
  alternative_approach : string
}.

(** the dictionaries returned by [_trigger_self_healing]; a key that is
    absent is [None] *)
Record HealingResult := {
  recovered : bool;
  healing_method : option string;
  recovery_time : option string;
  reason : option string
}.

Definition _analyze_failure (step result : Value) : Outcome RecoveryPlan :=
  error ← get result "error" (VStr "");
  let recovery_plan :=
    {| can_recover := false; recovery_method := ""; alternative_approach := "" |} in
  error_lower ← str_lower error;
  if contains "usb" error_lower then
    Ok {| can_recover := true; recovery_method := "usb_driver_reset";
          alternative_approach := "alternative_usb_protocol" |}
  else if contains "vulnerability" error_lower then
    Ok {| can_recover := true; recovery_method := "alternative_exploit";
          alternative_approach := "different_payload" |}
  else Ok recovery_plan.

Definition _execute_recovery_plan (recovery_plan : RecoveryPlan) : HealingResult :=
  {| recovered := true; healing_method := Some (recovery_method recovery_plan);
     recovery_time := Some "2 seconds"; reason := None |}.

Definition _trigger_self_healing (step result : Value) : Outcome HealingResult :=
  recovery_plan ← _analyze_failure step result;
  if can_recover recovery_plan then
    let recovery_result := _execute_recovery_plan recovery_plan in
    Ok recovery_result
  else
    Ok {| recovered := false; healing_method := None; recovery_time := None;
          reason := Some "No recovery method available" |}.

(** [not result.get("success", False)] *)
Definition failed (result : Value) : Outcome bool :=
  success ← get result "success" (VBool false);
  Ok (negb (truthy success)).

(** the body of the [for] loop of [execute_unlock_plan] *)
Definition loop_body (step : Value) (results : list Value) : M (list Value) :=
  let* result := _execute_step step in
  let results := (results ++ [result])%list in
  let* step_failed := lift (failed result) in
  if (step_failed : bool) then
    let* healing_result := lift (_trigger_self_healing step result) in
    if recovered healing_result then
      let* result := _execute_step step in
      ret (results ++ [VDict (<["retry_result" := result]> ∅)])%list
    else ret results
  else ret results.

Fixpoint for_each (steps : list Value) (results : list Value) : M (list Value) :=
  match steps with
  | [] => ret results
  | step :: steps' =>
      let* results := loop_body step results in
      for_each steps' results
  end.

(** [all(r.get("success", False) for r in results if "retry_result" not in r)] *)
Fixpoint all_success (results : list Value) : Outcome bool :=
  match results with
  | [] => Ok true
  | r :: results' =>
      is_retry ← str_in "retry_result" r;
      if (is_retry : bool) then all_success results'
      else
        success ← get r "success" (VBool false);
        if truthy success then all_success results' else Ok false
  end.

(** the dictionary returned by [execute_unlock_plan] *)
Record Report := {
  success : bool;
  steps_executed : nat;
  detailed_results : list Value;
  final_status : string
}.

Definition execute_unlock_plan (plan : Value) : M Report :=
  let* steps_value := lift (get plan "steps" (VList [])) in
  let* steps := lift (iter steps_value) in
  let* results := for_each steps [] in
  let* success := lift (all_success results) in
  ret {| success := success;
         steps_executed := length results;
         detailed_results := results;
         final_status := if (success : bool) then "unlocked" else "partially_locked" |}.

End Agents.

(** * Vocabulary of the properties *)

(** ** The recovery classifier of the self-healing service *)

Section SelfHealingVocabulary.
Import SelfHealing.

(** the conditions of the four branches that come before the catch-all *)
Definition usb_branch (error_type message : string) : bool :=
  contains "USB" error_type || contains "usb" (lower message).
Definition driver_branch (message : string) : bool :=
  contains "driver" (lower message) || contains "permission" (lower message).
Definition timeout_branch (message : string) : bool :=
  contains "timeout" (lower message) || contains "connection" (lower message).
Definition security_branch (message : string) : bool :=
  contains "security" (lower message) || contains "lock" (lower message).

End SelfHealingVocabulary.

(** ** The strategy planner *)

Section PlannerVocabulary.
Import Strategic.

(** the analysis [{"lock_detection": {"locks": locks},
    "device_identification": {"manufacturer": manufacturer}}] *)
Definition analysis_of (manufacturer : string) (locks : list string) : Value :=
  VDict (<["lock_detection" := VDict (<["locks" := VList (VStr <$> locks)]> ∅)]>
        (<["device_identification" :=
             VDict (<["manufacturer" := VStr manufacturer]> ∅)]> ∅)).

(** [device_analysis] is a dictionary without [group], or whose [group] is a
    dictionary without [field] *)
Definition lacks (device_analysis : Value) (group field : string) : Prop :=
  exists d, device_analysis = VDict d /\
    (d !! group = None \/
     exists g, d !! group = Some (VDict g) /\ g !! field = None).

(** the source's helpers, reading the analysis [device_analysis] *)
Definition stubs_on (device_analysis : Value) : Helpers :=
  {| _get_device_analysis := fun device_id => device_analysis;
     _generate_direct_bypass_steps := _generate_direct_bypass_steps stubs;
     _generate_vulnerability_steps := _generate_vulnerability_steps stubs;
     _generate_bootloader_steps := _generate_bootloader_steps stubs;
     _generate_custom_tool_steps := _generate_custom_tool_steps stubs;
     _generate_combination_steps := _generate_combination_steps stubs;
     _generate_alternative_steps := _generate_alternative_steps stubs;
     _calculate_success_probability := _calculate_success_probability stubs;
     _calculate_strategy_success := _calculate_strategy_success stubs;
     _assess_strategy_risk := _assess_strategy_risk stubs;
     _estimate_completion_time := _estimate_completion_time stubs;
     _identify_security_risks := _identify_security_risks stubs;
     _generate_risk_recommendations := _generate_risk_recommendations stubs |}.

(** the source's helpers, reading the analysis [device_analysis], with a
    bootloader generator that returns [bootloader_steps]; the other
    generators are the stubs *)
Definition with_bootloader_steps (device_analysis : Value)
    (bootloader_steps : list Value) : Helpers :=
  {| _get_device_analysis := fun device_id => device_analysis;
     _generate_direct_bypass_steps := _generate_direct_bypass_steps stubs;
     _generate_vulnerability_steps := _generate_vulnerability_steps stubs;
     _generate_bootloader_steps := fun analysis => bootloader_steps;
     _generate_custom_tool_steps := _generate_custom_tool_steps stubs;
     _generate_combination_steps := _generate_combination_steps stubs;
     _generate_alternative_steps := _generate_alternative_steps stubs;
     _calculate_success_probability := _calculate_success_probability stubs;
     _calculate_strategy_success := _calculate_strategy_success stubs;
     _assess_strategy_risk := _assess_strategy_risk stubs;
     _estimate_completion_time := _estimate_completion_time stubs;
     _identify_security_risks := _identify_security_risks stubs;
     _generate_risk_recommendations := _generate_risk_recommendations stubs |}.

(** helpers whose step generators all return the one step [step] *)
Definition one_step_helpers (step : Value) : Helpers :=
  {| _get_device_analysis := _get_device_analysis stubs;
     _generate_direct_bypass_steps := fun analysis => [step];
     _generate_vulnerability_steps := fun analysis => [step];
     _generate_bootloader_steps := fun analysis => [step];
     _generate_custom_tool_steps := fun analysis => [step];
     _generate_combination_steps := fun analysis => [step];
     _generate_alternative_steps := _generate_alternative_steps stubs;
     _calculate_success_probability := _calculate_success_probability stubs;
     _calculate_strategy_success := _calculate_strategy_success stubs;
     _assess_strategy_risk := _assess_strategy_risk stubs;
     _estimate_completion_time := _estimate_completion_time stubs;
     _identify_security_risks := _identify_security_risks stubs;
     _generate_risk_recommendations := _generate_risk_recommendations stubs |}.

(** the source's helpers, but with success probability 0.9 for the strategy
    [best] and 0.7 for the others *)
Definition stubs_favouring (best : UnlockStrategy) : Helpers :=
  {| _get_device_analysis := _get_device_analysis stubs;
     _generate_direct_bypass_steps := _generate_direct_bypass_steps stubs;
     _generate_vulnerability_steps := _generate_vulnerability_steps stubs;
     _generate_bootloader_steps := _generate_bootloader_steps stubs;
     _generate_custom_tool_steps := _generate_custom_tool_steps stubs;
     _generate_combination_steps := _generate_combination_steps stubs;
     _generate_alternative_steps := _generate_alternative_steps stubs;
     _calculate_success_probability := _calculate_success_probability stubs;
     _calculate_strategy_success :=
       fun analysis strategy => if decide (strategy = best) then 9 # 10 else 7 # 10;
     _assess_strategy_risk := _assess_strategy_risk stubs;
     _estimate_completion_time := _estimate_completion_time stubs;
     _identify_security_risks := _identify_security_risks stubs;
     _generate_risk_recommendations := _generate_risk_recommendations stubs |}.

(** the step generator that [_generate_unlock_steps] calls for a strategy *)
Definition generator_of (h : Helpers) (s : UnlockStrategy) : Value -> list Value :=
  match s with
  | DIRECT_BYPASS => _generate_direct_bypass_steps h
  | VULNERABILITY_EXPLOIT => _generate_vulnerability_steps h
  | BOOTLOADER_ACCESS => _generate_bootloader_steps h
  | CUSTOM_TOOL => _generate_custom_tool_steps h
  | COMBINATION => _generate_combination_steps h
  | RECOVERY_MODE => fun _ => []
  end.

(** ranked: every entry's key is at least the key of every later entry *)
Definition descending {A} (key : A -> Q) (l : list A) : Prop :=
  StronglySorted (fun a b => (key b <= key a)%Q) l.

(** the entry that [get_alternatives] builds for a strategy *)
Definition alternative_for (h : Helpers) (device_analysis : Value)
    (s : UnlockStrategy) : Alternative :=
  {| alt_strategy := s;
     alt_steps := _generate_alternative_steps h device_analysis s;
     alt_success_probability := _calculate_strategy_success h device_analysis s;
     alt_risk_level := _assess_strategy_risk h device_analysis s |}.

End PlannerVocabulary.

(** ** Workers and the orchestrator *)

Section OrchestratorVocabulary.
Import Agents.

(** the step [{"type": step_type}] *)
Definition step_of_type (step_type : string) : Value :=
  VDict (<["type" := VStr step_type]> ∅).

(** the plan [{"steps": steps}] *)
Definition plan_of (steps : list Value) : Value :=
  VDict (<["steps" := VList steps]> ∅).

(** the result [{"success": False, "error": message}] *)
Definition failure (message : string) : Value :=
  VDict (<["success" := VBool false]> (<["error" := VStr message]> ∅)).

(** a worker whose first task (tick 0) fails with [message] and whose later
    tasks succeed *)
Definition flaky_agent (message : string) : DeepAgent :=
  subclass (DeepAgent_init "flaky_agent" ["usb_control"])
    (fun tick task =>
       if Nat.eqb tick 0 then Ok (failure message)
       else Ok (VDict (<["success" := VBool true]> ∅))).

(** a worker whose every task fails with [message] *)
Definition failing_agent (message : string) : DeepAgent :=
  subclass (DeepAgent_init "failing_agent" ["usb_control"])
    (fun tick task => Ok (failure message)).

(** an orchestrator whose only worker, for [usb_communication] steps, is
    [agent] *)
Definition pool_of (agent : DeepAgent) : DeepAgents :=
  {| agents := <["usb_communication" := agent]> ∅; clock := 0; journal := [] |}.

(** the steps that [execute_unlock_plan] iterates over *)
Definition steps_of (plan : Value) : list Value :=
  except (steps_value ← get plan "steps" (VList []); iter steps_value) [].

(** The calls of [_execute_step] that one step may give rise to: one call,
    or two, the second only after the first returned a failed result that
    [_analyze_failure] found recoverable and whose recovery reported
    [recovered]. *)
Inductive attempts (step : Value) : list Event -> Prop :=
| attempts_once out :
    attempts step [Dispatched step out]
| attempts_retry result recovery_plan out :
    failed result = Ok true ->
    _analyze_failure step result = Ok recovery_plan ->
    can_recover recovery_plan = true ->
    recovered (_execute_recovery_plan recovery_plan) = true ->
    attempts step [Dispatched step (Ok result); Dispatched step out].

End OrchestratorVocabulary.

(** * Vocabulary of the further properties *)

Section SelfHealingHistoryVocabulary.
Import SelfHealing.

(** an error as [handle_error] is called with it: the name of its type, its
    message, the context and the timestamp of the call *)
Record ErrorCall := {
  call_error_type : string;
  call_message : string;
  call_context : string;
  call_time : string
}.

(** the system after [handle_error] has been called with each error in turn *)
Definition handle_errors (calls : list ErrorCall) (self : SelfHealingSystem)
    : SelfHealingSystem :=
  foldl
    (fun self call =>
       (handle_error self (call_error_type call) (call_message call)
          (call_context call) (call_time call)).2)
    self calls.

(** the incident that a call of [handle_error] leaves in the history *)
Definition incident_of (call : ErrorCall) : Incident :=
  {| timestamp := call_time call;
     error_type := call_error_type call;
     context := call_context call;
     message := call_message call;
     resolved := true;
     incident_recovery_method :=
       Some (method (_analyze_error (call_error_type call) (call_context call)
                       (call_message call))) |}.

(** the rows [(method, confidence, estimated_time)] of the classifier *)
Definition classification_table : list (string * Q * string) :=
  [("usb_connection_reset", 85 # 100, "30 seconds");
   ("driver_reinstallation", 75 # 100, "2 minutes");
   ("communication_retry", 90 # 100, "1 minute");
   ("alternative_unlock_method", 65 # 100, "5 minutes");
   ("generic_retry", 50 # 100, "1 minute")].

(** the recovery methods that [_execute_recovery] knows by name *)
Definition named_methods : list string :=
  ["usb_connection_reset"; "driver_reinstallation"; "communication_retry";
   "alternative_unlock_method"].

End SelfHealingHistoryVocabulary.

Section PlannerExtraVocabulary.
Import Strategic.

(** an analysis on which reading the locks or the manufacturer, lower-casing
    the manufacturer or searching the locks raises *)
Definition malformed (device_analysis : Value) : Prop :=
  (exists e, locks_of device_analysis = Raise e) \/
  (exists e, manufacturer_of device_analysis = Raise e) \/
  (exists v e, manufacturer_of device_analysis = Ok v /\ str_lower v = Raise e) \/
  (exists v e, locks_of device_analysis = Ok v /\ str_in "bootloader_lock" v = Raise e).

(** the risks that [_assess_risks] starts from *)
Definition initial_risks : Risks :=
  {| data_loss_probability := 0; brick_probability := 0; warranty_void := true;
     security_risks := []; recommendations := [] |}.

End PlannerExtraVocabulary.

Section OrchestratorExtraVocabulary.
Import Agents.

(** the key under which [_select_agent_for_step] looks the worker up *)
Definition agent_key_of (step_type : Value) : string :=
  match step_type with
  | VStr s => default "" (agent_mapping !! s)
  | _ => ""
  end.

(** the error text for a step type without a worker *)
Definition no_agent_message (step_type : Value) : string :=
  "No agent available for step type: " +:+ format step_type.

(** the result of a step for which no worker is found *)
Definition no_agent_result (step_type : Value) : Value :=
  VDict (<["success" := VBool false]>
        (<["error" := VStr (no_agent_message step_type)]> ∅)).

(** the entry under which the result of a retry is recorded *)
Definition retry_entry (result : Value) : Value :=
  VDict (<["retry_result" := result]> ∅).

(** whether [_analyze_failure] finds an error text recoverable *)
Definition recoverable_text (message : string) : bool :=
  contains "usb" (lower message) || contains "vulnerability" (lower message).

(** the report of a run over no steps *)
Definition empty_report : Report :=
  {| success := true; steps_executed := 0; detailed_results := [];
     final_status := "unlocked" |}.

(** the step types of the routing table *)
Definition known_step_types : list string :=
  ["usb_communication"; "vulnerability_exploit"; "pattern_analysis"; "security_bypass"].

(** a dictionary whose type is one of the routing table *)
Definition known_step (step : Value) : Prop :=
  exists d t, step = VDict d /\ d !! "type" = Some (VStr t) /\ t ∈ known_step_types.

(** the three workers of [initialize] are in place (whatever their status) *)
Definition shipped (random : nat -> Z) (self : DeepAgents) : Prop :=
  (exists agent, agents self !! "usb_communication" = Some agent /\
                 _perform_task agent = _perform_task (USBCommunicationAgent random)) /\
  (exists agent, agents self !! "vulnerability_exploit" = Some agent /\
                 _perform_task agent = _perform_task VulnerabilityExploitAgent) /\
  (exists agent, agents self !! "pattern_analysis" = Some agent /\
                 _perform_task agent = _perform_task PatternAnalysisAgent).

(** What one step leaves behind when its turn of the loop ends without an
    exception: the calls made for it and the entries recorded for it. *)
Inductive step_record (step : Value) : list Event -> list Value -> Prop :=
| record_success result :
    failed result = Ok false ->
    step_record step [Dispatched step (Ok result)] [result]
| record_failure result :
    failed result = Ok true ->
    step_record step [Dispatched step (Ok result)] [result]
| record_retry result retry :
    failed result = Ok true ->
    step_record step
      [Dispatched step (Ok result); Dispatched step (Ok retry)]
      [result; retry_entry retry].


End OrchestratorExtraVocabulary.

Section ShippedRunVocabulary.
Import Agents.

(** a result that counts as a success in the overall conjunction *)
Definition passes (result : Value) : Prop :=
  str_in "retry_result" result = Ok false /\ failed result = Ok false.

End ShippedRunVocabulary.

Section RetryVocabulary.
Import Agents.

(** a worker whose every task returns [result] *)
Definition answering_agent (result : Value) : DeepAgent :=
  subclass (DeepAgent_init "answering_agent" []) (fun tick task => Ok result).

End RetryVocabulary.

(** * Properties *)

(** ** The recovery classifier of the self-healing service *)

Section SelfHealingFacts.
Import SelfHealing.

Lemma analyze_error_can_recover error_type context message :
  can_recover (_analyze_error error_type context message) = true.
Proof.
  unfold _analyze_error.
  repeat match goal with |- context [if ?c then _ else _] => destruct c end;
    reflexivity.
Qed.

Lemma analyze_error_catch_all error_type context message :
  usb_branch error_type message = false ->
  driver_branch message = false ->
  timeout_branch message = false ->
  security_branch message = false ->
  _analyze_error error_type context message =
    {| can_recover := true; method := "generic_retry"; confidence := 50 # 100;
       estimated_time := "1 minute";
       manual_suggestions :=
         ["Check device connection"; "Restart the application";
          "Verify device compatibility"] |}.
Proof.
  unfold usb_branch, driver_branch, timeout_branch, security_branch, _analyze_error.
  intros -> -> -> ->. reflexivity.
Qed.

Lemma analyze_error_timeout error_type context message :
  usb_branch error_type message = false ->
  driver_branch message = false ->
  timeout_branch message = true ->
  _analyze_error error_type context message =
    {| can_recover := true; method := "communication_retry"; confidence := 90 # 100;
       estimated_time := "1 minute"; manual_suggestions := [] |}.
Proof.
  unfold usb_branch, driver_branch, timeout_branch, _analyze_error.
  intros -> -> ->. reflexivity.
Qed.

Lemma execute_recovery_recovers plan :
  recovered (_execute_recovery plan) = true /\ success (_execute_recovery plan) = true.
Proof.
  unfold _execute_recovery.
  repeat match goal with |- context [if ?c then _ else _] => destruct c end;
    split; reflexivity.
Qed.

(** C10.  Whatever the error type, context and message, [_analyze_error]
    returns a plan with [can_recover = True]; an error that matches none of
    the four specific branches gets [generic_retry] with confidence 0.50
    from the catch-all.  So [handle_error] always runs a recovery: its
    result is the one of [_execute_recovery], never the dictionary with
    "No automatic recovery method available" (nor the one of the handler). *)
Theorem analyze_error_total_recovery (error_type context message : string) :
  can_recover (_analyze_error error_type context message) = true /\
  (usb_branch error_type message || driver_branch message
     || timeout_branch message || security_branch message = false ->
   method (_analyze_error error_type context message) = "generic_retry" /\
   confidence (_analyze_error error_type context message) = 50 # 100) /\
  forall (self : SelfHealingSystem) (now : string),
    (handle_error self error_type message context now).1 =
      RecoveryRan (_execute_recovery (_analyze_error error_type context message)) /\
    (forall suggestions,
       (handle_error self error_type message context now).1 <>
         NoRecoveryMethod suggestions).
Proof.
  split; [apply analyze_error_can_recover|]. split.
  - intros H. do 3 (apply orb_false_elim in H as [H ?]).
    rewrite analyze_error_catch_all by assumption. split; reflexivity.
  - intros self now. unfold handle_error.
    rewrite analyze_error_can_recover. split; [reflexivity|].
    intros suggestions. discriminate.
Qed.

Lemma analyze_error_total_recovery_witness :
  method (_analyze_error "ValueError" "unlock_process" "unexpected state") =
    "generic_retry" /\
  confidence (_analyze_error "ValueError" "unlock_process" "unexpected state") =
    50 # 100.
Proof.
  apply (analyze_error_total_recovery "ValueError" "unlock_process" "unexpected state").
  vm_compute. reflexivity.
Defined.

End SelfHealingFacts.

(** ** Sorting *)

Section Sorting.
Context {A : Type} (key : A -> Q).

Lemma insert_desc_perm x l : insert_desc key x l ≡ₚ x :: l.
Proof.
  induction l as [|y l IH]; simpl; [done|].
  destruct (Qle_bool (key y) (key x)); [done|].
  rewrite IH. apply Permutation_swap.
Qed.

Lemma sorted_desc_perm l : sorted_desc key l ≡ₚ l.
Proof.
  induction l as [|x l IH]; simpl; [done|].
  rewrite insert_desc_perm. by rewrite IH.
Qed.

Lemma sorted_desc_length l : length (sorted_desc key l) = length l.
Proof. by rewrite sorted_desc_perm. Qed.

Lemma insert_desc_descending x l :
  descending key l -> descending key (insert_desc key x l).
Proof.
  unfold descending. induction l as [|y l IH]; simpl; intros Hl.
  - repeat constructor.
  - apply StronglySorted_inv in Hl as [Hl Hy].
    destruct (Qle_bool (key y) (key x)) eqn:Hle.
    + apply Qle_bool_iff in Hle.
      constructor; [by constructor|]. constructor; [done|].
      eapply Forall_impl; [exact Hy|]. intros z Hz. simpl in Hz. by eapply Qle_trans.
    + constructor; [by apply IH|].
      rewrite insert_desc_perm. constructor; [|done].
      apply Qlt_le_weak, Qnot_le_lt. intros Hle'.
      apply Qle_bool_iff in Hle'. congruence.
Qed.

Lemma sorted_desc_descending l : descending key (sorted_desc key l).
Proof.
  induction l as [|x l IH]; simpl; [constructor|].
  by apply insert_desc_descending.
Qed.

End Sorting.

(** ** The strategy planner *)

Section PlannerFacts.
Import Strategic.

Lemma existsb_eq_str s (l : list Value) :
  VStr s ∈ l -> existsb (eq_str s) l = true.
Proof.
  intros Hin. apply existsb_exists. exists (VStr s). split.
  - by apply list_elem_of_In.
  - simpl. apply String.eqb_refl.
Qed.

(** [RECOVERY_MODE] is no outcome of the selection rules. *)
Lemma select_cases device_analysis :
  _select_optimal_strategy device_analysis ∈
    [BOOTLOADER_ACCESS; VULNERABILITY_EXPLOIT; CUSTOM_TOOL; COMBINATION; DIRECT_BYPASS].
Proof.
  unfold _select_optimal_strategy, except, mbind, Outcome_bind, bind.
  repeat case_match; simplify_eq; set_solver.
Qed.

Lemma select_not_recovery_mode device_analysis :
  _select_optimal_strategy device_analysis <> RECOVERY_MODE.
Proof.
  unfold _select_optimal_strategy, except, mbind, Outcome_bind, bind.
  repeat case_match; simplify_eq; discriminate.
Qed.

Lemma lacks_locks device_analysis :
  lacks device_analysis "lock_detection" "locks" ->
  locks_of device_analysis = Ok (VList []).
Proof.
  intros (d & -> & [Hd | (g & Hd & Hg)]);
    unfold locks_of, get, dict_get; simpl; rewrite Hd; simpl; [done|].
  by rewrite Hg.
Qed.

Lemma lacks_manufacturer device_analysis :
  lacks device_analysis "device_identification" "manufacturer" ->
  manufacturer_of device_analysis = Ok (VStr "").
Proof.
  intros (d & -> & [Hd | (g & Hd & Hg)]);
    unfold manufacturer_of, get, dict_get; simpl; rewrite Hd; simpl; [done|].
  by rewrite Hg.
Qed.

Lemma select_without_locks device_analysis :
  lacks device_analysis "lock_detection" "locks" ->
  _select_optimal_strategy device_analysis = DIRECT_BYPASS.
Proof.
  intros H. unfold _select_optimal_strategy. rewrite (lacks_locks _ H).
  unfold except, mbind, Outcome_bind, bind; simpl.
  repeat case_match; simplify_eq; done.
Qed.

Lemma select_without_manufacturer device_analysis :
  lacks device_analysis "device_identification" "manufacturer" ->
  _select_optimal_strategy device_analysis ∈ [CUSTOM_TOOL; COMBINATION; DIRECT_BYPASS].
Proof.
  intros H. unfold _select_optimal_strategy. rewrite (lacks_manufacturer _ H).
  unfold except, mbind, Outcome_bind, bind.
  destruct (locks_of device_analysis) as [locks|]; simpl; [|set_solver].
  repeat (case_match; simplify_eq; rewrite ?andb_false_r in *; try discriminate);
    set_solver.
Qed.

(** C5.  When the detected locks contain [bootloader_lock] and the
    manufacturer is samsung (in any letter case), strategy selection returns
    [BOOTLOADER_ACCESS], whatever the other locks are: the rules are tried
    in order and this one is the first. *)
Theorem bootloader_lock_on_samsung_selects_bootloader_access
    (device_analysis : Value) (locks : list Value) (manufacturer : string) :
  locks_of device_analysis = Ok (VList locks) ->
  VStr "bootloader_lock" ∈ locks ->
  manufacturer_of device_analysis = Ok (VStr manufacturer) ->
  lower manufacturer = "samsung" ->
  _select_optimal_strategy device_analysis = BOOTLOADER_ACCESS.
Proof.
  intros Hlocks Hin Hman Hlow. unfold _select_optimal_strategy.
  rewrite Hlocks, Hman.
  unfold except, mbind, Outcome_bind, bind; simpl.
  by rewrite Hlow, (existsb_eq_str _ _ Hin).
Qed.

Lemma bootloader_lock_on_samsung_witness :
  _select_optimal_strategy
    (analysis_of "Samsung" ["frp_lock"; "icloud_lock"; "bootloader_lock"; "sim_lock"])
  = BOOTLOADER_ACCESS.
Proof.
  apply (bootloader_lock_on_samsung_selects_bootloader_access _
           (VStr <$> ["frp_lock"; "icloud_lock"; "bootloader_lock"; "sim_lock"])
           "Samsung").
  - reflexivity.
  - simpl. set_solver.
  - reflexivity.
  - reflexivity.
Defined.

(** C4, as the code has it.  An analysis that lacks the lock list or the
    manufacturer does not make plan creation fail: a plan is returned.  When
    the lock list is missing its strategy is [DIRECT_BYPASS]; when the
    manufacturer is missing the two manufacturer rules cannot apply and the
    strategy is [CUSTOM_TOOL], [COMBINATION] or [DIRECT_BYPASS]. *)
Theorem create_unlock_plan_defaults_on_missing_fields
    (h : Helpers) (device_id method : string) :
  lacks (_get_device_analysis h device_id) "lock_detection" "locks" \/
  lacks (_get_device_analysis h device_id) "device_identification" "manufacturer" ->
  exists plan,
    create_unlock_plan h device_id method = Ok plan /\
    strategy plan ∈ [CUSTOM_TOOL; COMBINATION; DIRECT_BYPASS] /\
    (lacks (_get_device_analysis h device_id) "lock_detection" "locks" ->
     strategy plan = DIRECT_BYPASS).
Proof.
  intros H. eexists. split; [reflexivity|]. simpl. split.
  - destruct H as [H|H].
    + rewrite (select_without_locks _ H). set_solver.
    + by apply select_without_manufacturer.
  - apply select_without_locks.
Qed.

Lemma create_unlock_plan_defaults_witness :
  exists plan,
    create_unlock_plan stubs "device-1" "auto" = Ok plan /\
    strategy plan ∈ [CUSTOM_TOOL; COMBINATION; DIRECT_BYPASS] /\
    (lacks (_get_device_analysis stubs "device-1") "lock_detection" "locks" ->
     strategy plan = DIRECT_BYPASS).
Proof.
  apply (create_unlock_plan_defaults_on_missing_fields stubs "device-1" "auto").
  left. exists ∅. split; [reflexivity|]. left. reflexivity.
Defined.

(** C4, counterexample.  The analysis that the source hands to the planner
    is the empty dictionary: it has neither a lock list nor a manufacturer,
    and plan creation returns a plan with [DIRECT_BYPASS] instead of
    raising. *)
Lemma create_unlock_plan_no_invalid_analysis :
  lacks (_get_device_analysis stubs "device-1") "lock_detection" "locks" /\
  lacks (_get_device_analysis stubs "device-1") "device_identification" "manufacturer" /\
  (forall e, create_unlock_plan stubs "device-1" "auto" <> Raise e) /\
  exists plan,
    create_unlock_plan stubs "device-1" "auto" = Ok plan /\
    strategy plan = DIRECT_BYPASS.
Proof.
  split; [|split; [|split]].
  - exists ∅. split; [reflexivity|]. by left.
  - exists ∅. split; [reflexivity|]. by left.
  - intros e. discriminate.
  - eexists. split; reflexivity.
Qed.

(** C9, as the code has it.  For every analysis, the steps of the created
    plan are exactly what the generator of the selected strategy returns for
    that analysis ([RECOVERY_MODE], the one strategy without a generator, is
    never selected); so the plan has at least one step exactly when that
    generator returns at least one. *)
Theorem plan_steps_from_selected_generator
    (h : Helpers) (device_id method : string) :
  exists plan,
    create_unlock_plan h device_id method = Ok plan /\
    strategy plan = _select_optimal_strategy (_get_device_analysis h device_id) /\
    strategy plan <> RECOVERY_MODE /\
    steps plan = generator_of h (strategy plan) (_get_device_analysis h device_id) /\
    (steps plan <> [] <->
     generator_of h (strategy plan) (_get_device_analysis h device_id) <> []).
Proof.
  eexists. split; [reflexivity|]. simpl.
  assert (_generate_unlock_steps h (_get_device_analysis h device_id) =
          generator_of h (_select_optimal_strategy (_get_device_analysis h device_id))
            (_get_device_analysis h device_id)) as ->.
  { unfold _generate_unlock_steps, generator_of. by case_match. }
  split; [reflexivity|]. split; [apply select_not_recovery_mode|].
  split; reflexivity.
Qed.

(** With the source's helpers, where every generator returns the empty
    list, the theorem gives a plan without steps for every device; with a
    bootloader generator that returns a step, and the others left as they
    are, it gives a plan with that step for a samsung device with a
    bootloader lock. *)
Lemma plan_steps_from_selected_generator_witness :
  (exists plan,
     create_unlock_plan stubs "device-1" "auto" = Ok plan /\ steps plan = []) /\
  (exists plan,
     create_unlock_plan
       (with_bootloader_steps (analysis_of "samsung" ["bootloader_lock"])
          [step_of_type "usb_communication"])
       "device-1" "auto" = Ok plan /\
     steps plan <> []).
Proof.
  split.
  - destruct (plan_steps_from_selected_generator stubs "device-1" "auto")
      as (plan & Hplan & Hstrategy & _ & Hsteps & _).
    exists plan. split; [exact Hplan|].
    rewrite Hsteps, Hstrategy. reflexivity.
  - destruct (plan_steps_from_selected_generator
                (with_bootloader_steps (analysis_of "samsung" ["bootloader_lock"])
                   [step_of_type "usb_communication"])
                "device-1" "auto")
      as (plan & Hplan & Hstrategy & _ & _ & Hnonempty).
    exists plan. split; [exact Hplan|].
    apply Hnonempty. rewrite Hstrategy. discriminate.
Defined.

(** C9, counterexample.  With the generators of the source the plan for the
    analysis [{manufacturer: samsung, locks: [bootloader_lock]}] selects
    [BOOTLOADER_ACCESS] and has no step at all. *)
Lemma plan_for_samsung_bootloader_has_no_steps :
  exists plan,
    create_unlock_plan (stubs_on (analysis_of "samsung" ["bootloader_lock"]))
      "device-1" "auto" = Ok plan /\
    strategy plan = BOOTLOADER_ACCESS /\
    steps plan = [] /\
    _generate_unlock_steps stubs (analysis_of "samsung" ["bootloader_lock"]) = [].
Proof. eexists. repeat split; reflexivity. Qed.

Lemma remove_from_members (primary : UnlockStrategy) :
  remove primary members = Ok (filter (fun s => s <> primary) members).
Proof. destruct primary; reflexivity. Qed.

Lemma get_alternatives_perm (h : Helpers) (device_id : string) :
  get_alternatives h device_id ≡ₚ
    alternative_for h (_get_device_analysis h device_id) <$>
      filter (fun s => s <> _select_optimal_strategy (_get_device_analysis h device_id))
        members.
Proof.
  unfold get_alternatives. rewrite remove_from_members.
  by rewrite sorted_desc_perm.
Qed.

Lemma filter_members_length (primary : UnlockStrategy) :
  length (filter (fun s => s <> primary) members) = 5.
Proof. destruct primary; reflexivity. Qed.

Lemma fallbacks_exclude_primary (h : Helpers) (device_analysis : Value) :
  Forall (fun f => fb_strategy f <> _select_optimal_strategy device_analysis)
    (_prepare_fallback_strategies h device_analysis).
Proof.
  unfold _prepare_fallback_strategies. rewrite sorted_desc_perm.
  apply Forall_fmap, Forall_take, Forall_forall.
  intros s Hs. simpl. by apply list_elem_of_filter in Hs as [Hs _].
Qed.

Lemma alternatives_exclude_primary (h : Helpers) (device_id : string) :
  Forall (fun alt =>
            alt_strategy alt <> _select_optimal_strategy (_get_device_analysis h device_id))
    (get_alternatives h device_id).
Proof.
  rewrite get_alternatives_perm.
  apply Forall_fmap, Forall_forall.
  intros s Hs. simpl. by apply list_elem_of_filter in Hs as [Hs _].
Qed.

(** C6.  For every analysis the planner is given, no fallback strategy of
    the created plan and no entry of the list of alternatives is the
    strategy selected as primary. *)
Theorem primary_is_no_fallback_and_no_alternative
    (h : Helpers) (device_id method : string) :
  exists plan,
    create_unlock_plan h device_id method = Ok plan /\
    Forall (fun f => fb_strategy f <> strategy plan) (fallback_strategies plan) /\
    Forall (fun alt => alt_strategy alt <> strategy plan) (get_alternatives h device_id).
Proof.
  eexists. split; [reflexivity|]. simpl. split.
  - apply fallbacks_exclude_primary.
  - apply alternatives_exclude_primary.
Qed.

(** C7, as the code has it.  [get_alternatives] builds one entry for each
    of the five strategies other than the primary, with the success
    probability computed against the same analysis, and returns all five,
    ranked by descending success probability.  The fallbacks of a plan are
    at most two, ranked by descending success probability, each with the
    probability computed against the same analysis. *)
Theorem alternatives_ranked_and_fallbacks_bounded
    (h : Helpers) (device_id : string) :
  let device_analysis := _get_device_analysis h device_id in
  let primary := _select_optimal_strategy device_analysis in
  get_alternatives h device_id ≡ₚ
    alternative_for h device_analysis <$> filter (fun s => s <> primary) members /\
  length (get_alternatives h device_id) = 5 /\
  descending alt_success_probability (get_alternatives h device_id) /\
  length (_prepare_fallback_strategies h device_analysis) <= 2 /\
  descending fb_success_probability (_prepare_fallback_strategies h device_analysis) /\
  Forall (fun f =>
            fb_success_probability f =
              _calculate_strategy_success h device_analysis (fb_strategy f))
    (_prepare_fallback_strategies h device_analysis).
Proof.
  intros device_analysis primary. split; [apply get_alternatives_perm|].
  split; [|split; [|split; [|split]]].
  - rewrite get_alternatives_perm, length_fmap. apply filter_members_length.
  - unfold get_alternatives. rewrite remove_from_members.
    apply sorted_desc_descending.
  - unfold _prepare_fallback_strategies.
    rewrite sorted_desc_length, length_fmap, length_take. lia.
  - apply sorted_desc_descending.
  - unfold _prepare_fallback_strategies. rewrite sorted_desc_perm.
    apply Forall_fmap, Forall_forall. by intros s _.
Qed.

(** C7, counterexample.  For the source as it is, [get_alternatives]
    returns five entries, not at most two. *)
Lemma get_alternatives_returns_five :
  length (get_alternatives stubs "device-1") = 5 /\
  ~ length (get_alternatives stubs "device-1") <= 2.
Proof. split; [reflexivity|]. vm_compute. lia. Qed.

(** The fallbacks are cut to two before they are ranked: with a success
    probability that favours [COMBINATION], the alternatives put it first
    while the fallbacks are the first two strategies of the enumeration. *)
Example fallbacks_cut_before_ranking :
  fb_strategy <$> _prepare_fallback_strategies (stubs_favouring COMBINATION) (VDict ∅) =
    [VULNERABILITY_EXPLOIT; RECOVERY_MODE] /\
  alt_strategy <$> get_alternatives (stubs_favouring COMBINATION) "device-1" =
    [COMBINATION; VULNERABILITY_EXPLOIT; RECOVERY_MODE; BOOTLOADER_ACCESS; CUSTOM_TOOL].
Proof. split; reflexivity. Qed.

End PlannerFacts.

(** ** Workers *)

Section WorkerFacts.
Import Agents.



End WorkerFacts.

(** ** The orchestrator *)

Section OrchestratorFacts.
Import Agents.

(** Every call of [_execute_step] is entered in the journal, once. *)
Lemma execute_step_journal (step : Value) (self : DeepAgents) :
  journal (_execute_step step self).2 =
    (journal self ++ [Dispatched step (_execute_step step self).1])%list.
Proof.
  unfold _execute_step, journaled.
  destruct (get step "type" (VStr "")) as [step_type|e]; [|reflexivity].
  destruct (_select_agent_for_step self step_type) as [[[key agent]|]|e];
    try reflexivity.
  destruct (execute_task agent (clock self) step); reflexivity.
Qed.

Lemma trigger_self_healing_recovered (step result : Value) (healing : HealingResult) :
  _trigger_self_healing step result = Ok healing ->
  recovered healing = true ->
  exists recovery_plan,
    _analyze_failure step result = Ok recovery_plan /\
    can_recover recovery_plan = true /\
    healing = _execute_recovery_plan recovery_plan.
Proof.
  unfold _trigger_self_healing, mbind, Outcome_bind, bind.
  destruct (_analyze_failure step result) as [recovery_plan|e]; [|discriminate].
  destruct (can_recover recovery_plan) eqn:Hcan; intros [= <-] Hrec.
  - by exists recovery_plan.
  - discriminate.
Qed.

(** what [_analyze_failure] answers for a result whose error text is
    [message] *)
Lemma analyze_failure_of_message (step result : Value) (message : string) :
  get result "error" (VStr "") = Ok (VStr message) ->
  _analyze_failure step result =
    Ok (if contains "usb" (lower message) then
          {| can_recover := true; recovery_method := "usb_driver_reset";
             alternative_approach := "alternative_usb_protocol" |}
        else if contains "vulnerability" (lower message) then
          {| can_recover := true; recovery_method := "alternative_exploit";
             alternative_approach := "different_payload" |}
        else
          {| can_recover := false; recovery_method := "";
             alternative_approach := "" |}).
Proof.
  intros Herr. unfold _analyze_failure. rewrite Herr.
  unfold mbind, Outcome_bind, bind; simpl.
  by repeat case_match.
Qed.

(** one turn of the loop, given how the first attempt went *)
Lemma loop_body_after_first_attempt
    (step : Value) (results : list Value) (self self1 : DeepAgents) (result : Value) :
  _execute_step step self = (Ok result, self1) ->
  loop_body step results self =
    match failed result with
    | Raise e => (Raise e, self1)
    | Ok false => (Ok (results ++ [result])%list, self1)
    | Ok true =>
        match _trigger_self_healing step result with
        | Raise e => (Raise e, self1)
        | Ok healing =>
            if recovered healing then
              match _execute_step step self1 with
              | (Ok retry, self2) =>
                  (Ok ((results ++ [result]) ++
                         [VDict (<["retry_result" := retry]> ∅)])%list, self2)
              | (Raise e, self2) => (Raise e, self2)
              end
            else (Ok (results ++ [result])%list, self1)
        end
    end.
Proof.
  intros Hfirst. unfold loop_body, bindM at 1. rewrite Hfirst.
  unfold bindM, lift, ret.
  destruct (failed result) as [[|]|e]; try reflexivity.
  destruct (_trigger_self_healing step result) as [healing|e]; [|reflexivity].
  destruct (recovered healing); [|reflexivity].
  destruct (_execute_step step self1) as [[retry|e] self2]; reflexivity.
Qed.

(** C3, as the code has it.  For an error of the timeout kind (the text, in
    lower case, contains "timeout" and no earlier branch matches), the
    classifier of the self-healing service returns [communication_retry]
    with confidence 0.90 and its executor reports [recovered].  The
    orchestrator does not consult that classifier but its own
    [_analyze_failure], which knows "usb" and "vulnerability" only: when a
    step's first attempt fails with such an error text, the step is
    dispatched once more if the text also contains "vulnerability", and not
    again otherwise. *)
Theorem timeout_error_classified_but_retried_only_by_own_rules
    (error_type context message : string) :
  usb_branch error_type message = false ->
  driver_branch message = false ->
  contains "timeout" (lower message) = true ->
  SelfHealing.method (SelfHealing._analyze_error error_type context message) =
    "communication_retry" /\
  SelfHealing.confidence (SelfHealing._analyze_error error_type context message) =
    90 # 100 /\
  SelfHealing.recovered
    (SelfHealing._execute_recovery
       (SelfHealing._analyze_error error_type context message)) = true /\
  forall (step : Value) (results : list Value) (self self1 : DeepAgents)
         (result : Value),
    _execute_step step self = (Ok result, self1) ->
    failed result = Ok true ->
    get result "error" (VStr "") = Ok (VStr message) ->
    length (journal (loop_body step results self).2) =
      length (journal self) +
        (if contains "vulnerability" (lower message) then 2 else 1) /\
    (contains "vulnerability" (lower message) = false ->
     loop_body step results self = (Ok (results ++ [result])%list, self1)).
Proof.
  intros Husb Hdriver Htimeout.
  assert (timeout_branch message = true) as Hbranch.
  { unfold timeout_branch. by rewrite Htimeout. }
  rewrite (analyze_error_timeout _ _ _ Husb Hdriver Hbranch).
  split; [reflexivity|]. split; [reflexivity|]. split; [reflexivity|].
  intros step results self self1 result Hfirst Hfailed Herror.
  apply orb_false_elim in Husb as [_ Husb'].
  pose proof (execute_step_journal step self) as Hj1.
  rewrite Hfirst in Hj1. simpl in Hj1.
  rewrite (loop_body_after_first_attempt _ _ _ _ _ Hfirst), Hfailed.
  unfold _trigger_self_healing.
  rewrite (analyze_failure_of_message _ _ _ Herror), Husb'.
  unfold mbind, Outcome_bind, bind.
  destruct (contains "vulnerability" (lower message)); simpl.
  - split; [|discriminate].
    pose proof (execute_step_journal step self1) as Hj2.
    destruct (_execute_step step self1) as [[retry|e] self2]; simpl in *;
      rewrite Hj2, Hj1, !length_app; simpl; lia.
  - split; [|reflexivity]. rewrite Hj1, length_app. simpl. lia.
Qed.

Lemma timeout_error_witness :
  SelfHealing.method
    (SelfHealing._analyze_error "TimeoutError" "unlock_process"
       "Timeout while waiting for the device") = "communication_retry" /\
  SelfHealing.confidence
    (SelfHealing._analyze_error "TimeoutError" "unlock_process"
       "Timeout while waiting for the device") = 90 # 100 /\
  SelfHealing.recovered
    (SelfHealing._execute_recovery
       (SelfHealing._analyze_error "TimeoutError" "unlock_process"
          "Timeout while waiting for the device")) = true /\
  length (journal
            (loop_body (step_of_type "usb_communication") []
               (pool_of (failing_agent "Timeout while waiting for the device"))).2) =
    length (journal (pool_of (failing_agent "Timeout while waiting for the device"))) + 1.
Proof.
  pose proof (timeout_error_classified_but_retried_only_by_own_rules
                "TimeoutError" "unlock_process" "Timeout while waiting for the device"
                eq_refl eq_refl eq_refl) as (Hm & Hc & Hr & Hloop).
  split; [exact Hm|]. split; [exact Hc|]. split; [exact Hr|].
  exact (proj1 (Hloop (step_of_type "usb_communication") []
                  (pool_of (failing_agent "Timeout while waiting for the device"))
                  _ _ eq_refl eq_refl eq_refl)).
Defined.

(** C3, counterexample.  A step whose first attempt fails with the error
    text "timeout while waiting for the device": the error is of the timeout
    kind and the self-healing classifier and executor answer as stated, but
    the orchestrator dispatches the step once and never retries it. *)
Lemma timeout_failure_is_not_retried :
  let message := "timeout while waiting for the device" in
  let step := step_of_type "usb_communication" in
  let run := execute_unlock_plan (plan_of [step]) (pool_of (failing_agent message)) in
  usb_branch "TimeoutError" message = false /\
  driver_branch message = false /\
  contains "timeout" message = true /\
  SelfHealing.method (SelfHealing._analyze_error "TimeoutError" "unlock_process" message)
    = "communication_retry" /\
  _trigger_self_healing step (failure message) =
    Ok {| recovered := false; healing_method := None; recovery_time := None;
          reason := Some "No recovery method available" |} /\
  journal run.2 = [Dispatched step (Ok (failure message))] /\
  exists report,
    run.1 = Ok report /\ steps_executed report = 1 /\
    detailed_results report = [failure message].
Proof.
  repeat split; try reflexivity.
  eexists. repeat split; reflexivity.
Qed.

(** The result of a retry is no part of the overall success: an entry
    [{"retry_result": ...}] is passed over, whatever it holds. *)
Lemma all_success_passes_over_retry (before after : list Value) (retry : Value) :
  all_success (before ++ VDict (<["retry_result" := retry]> ∅) :: after)%list =
  all_success (before ++ after)%list.
Proof.
  induction before as [|r before IH]; simpl.
  - unfold mbind, Outcome_bind, bind; simpl.
    rewrite lookup_insert_eq. reflexivity.
  - rewrite IH. reflexivity.
Qed.

(** A failed first attempt decides the overall success, whatever the retry
    that follows it returned. *)
Lemma failed_first_attempt_decides
    (d : gmap string Value) (retry : Value) (after : list Value) :
  d !! "retry_result" = None ->
  failed (VDict d) = Ok true ->
  all_success (VDict d :: VDict (<["retry_result" := retry]> ∅) :: after) = Ok false.
Proof.
  intros Hkey Hfailed. unfold failed in Hfailed. simpl in *.
  unfold mbind, Outcome_bind, bind in *; simpl in *.
  rewrite Hkey. simpl.
  destruct (truthy (dict_get d "success" (VBool false))); [discriminate|reflexivity].
Qed.

(** C1, at a failing input.  One step, handled by a worker whose first
    attempt fails with a USB error and whose second attempt succeeds: the
    failure is found recoverable, the step is retried and the retry
    succeeds, yet the run reports [success = False] and
    "partially_locked".  The failed first attempt stays in the conjunction;
    the successful retry is passed over. *)
Theorem successful_retry_still_reported_as_failure :
  let step := step_of_type "usb_communication" in
  let run :=
    execute_unlock_plan (plan_of [step]) (pool_of (flaky_agent "USB handshake failed")) in
  journal run.2 =
    [Dispatched step (Ok (failure "USB handshake failed"));
     Dispatched step (Ok (VDict (<["success" := VBool true]> ∅)))] /\
  exists report,
    run.1 = Ok report /\
    detailed_results report =
      [failure "USB handshake failed";
       VDict (<["retry_result" := VDict (<["success" := VBool true]> ∅)]> ∅)] /\
    steps_executed report = 2 /\
    success report = false /\
    final_status report = "partially_locked".
Proof.
  split; [reflexivity|]. eexists. repeat split; reflexivity.
Qed.

Lemma loop_body_attempts (step : Value) (results : list Value) (self : DeepAgents) :
  exists events,
    journal (loop_body step results self).2 = (journal self ++ events)%list /\
    attempts step events.
Proof.
  pose proof (execute_step_journal step self) as Hj1.
  destruct (_execute_step step self) as [[result|e] self1] eqn:Hfirst; simpl in Hj1.
  - rewrite (loop_body_after_first_attempt _ _ _ _ _ Hfirst).
    destruct (failed result) as [[|]|e] eqn:Hfailed;
      try (eexists; split; [exact Hj1|constructor]).
    destruct (_trigger_self_healing step result) as [healing|e] eqn:Hheal;
      try (eexists; split; [exact Hj1|constructor]).
    destruct (recovered healing) eqn:Hrec;
      try (eexists; split; [exact Hj1|constructor]).
    destruct (trigger_self_healing_recovered _ _ _ Hheal Hrec)
      as (recovery_plan & Hplan & Hcan & ->).
    pose proof (execute_step_journal step self1) as Hj2.
    destruct (_execute_step step self1) as [[retry|e] self2]; simpl in *;
      (eexists; split;
       [rewrite Hj2, Hj1, <- app_assoc; reflexivity
       |by eapply attempts_retry]).
  - unfold loop_body, bindM at 1. rewrite Hfirst. simpl.
    eexists; split; [exact Hj1|constructor].
Qed.

Lemma attempts_length (step : Value) (events : list Event) :
  attempts step events -> 1 <= length events <= 2.
Proof. destruct 1; simpl; lia. Qed.

Lemma for_each_attempts (steps results : list Value) (self : DeepAgents) :
  exists chunks : list (list Event),
    journal (for_each steps results self).2 = (journal self ++ concat chunks)%list /\
    Forall2 attempts (take (length chunks) steps) chunks /\
    match (for_each steps results self).1 with
    | Ok _ => length chunks = length steps
    | Raise _ => length chunks <= length steps
    end.
Proof.
  revert results self.
  induction steps as [|step steps IH]; intros results self; simpl.
  - exists []. simpl. rewrite app_nil_r. by repeat split.
  - destruct (loop_body_attempts step results self) as (events & Hj & Hevents).
    unfold bindM.
    destruct (loop_body step results self) as [[results1|e] self1]; simpl in Hj.
    + destruct (IH results1 self1) as (chunks & Hj' & Hall & Hlen).
      exists (events :: chunks). simpl. split; [|split].
      * by rewrite Hj', Hj, <- app_assoc.
      * by constructor.
      * destruct ((for_each steps results1 self1).1); lia.
    + exists [events]. simpl. split; [|split].
      * by rewrite app_nil_r.
      * rewrite take_0. by repeat constructor.
      * lia.
Qed.

(** C2.  In one run of [execute_unlock_plan] the calls of [_execute_step]
    are, plan step by plan step and in plan order, one call for the step or
    two; a second call is made only after the first returned a failed
    result, [_analyze_failure] classified it as recoverable and the recovery
    reported [recovered = True].  A run that returns a report has gone
    through every step of the plan; a run that raises has stopped at some
    step. *)
Theorem each_step_dispatched_at_most_twice (plan : Value) (self : DeepAgents) :
  exists chunks : list (list Event),
    journal (execute_unlock_plan plan self).2 = (journal self ++ concat chunks)%list /\
    Forall2 attempts (take (length chunks) (steps_of plan)) chunks /\
    Forall (fun events => 1 <= length events <= 2) chunks /\
    match (execute_unlock_plan plan self).1 with
    | Ok _ => length chunks = length (steps_of plan)
    | Raise _ => length chunks <= length (steps_of plan)
    end.
Proof.
  assert (forall steps chunks,
            Forall2 attempts (take (length chunks) steps) chunks ->
            Forall (fun events => 1 <= length events <= 2) chunks) as Hbound.
  { intros steps chunks Hall. induction Hall; constructor; eauto using attempts_length. }
  unfold execute_unlock_plan, steps_of, bindM, lift, ret,
    mbind, Outcome_bind, bind, except.
  destruct (get plan "steps" (VList [])) as [steps_value|e]; simpl.
  - destruct (iter steps_value) as [steps|e]; simpl.
    + destruct (for_each_attempts steps [] self) as (chunks & Hj & Hall & Hlen).
      exists chunks.
      destruct (for_each steps [] self) as [[results|e] self1]; simpl in *.
      * destruct (all_success results); simpl; eauto.
        repeat split; eauto. lia.
      * eauto.
    + exists []. simpl. rewrite app_nil_r. repeat split; constructor.
  - exists []. simpl. rewrite app_nil_r. repeat split; constructor.
Qed.

End OrchestratorFacts.

(** * Further properties *)

(** ** The self-healing service: history and status *)

Section SelfHealingHistoryFacts.
Import SelfHealing.

Lemma lower_ascii_idempotent (c : ascii) : lower_ascii (lower_ascii c) = lower_ascii c.
Proof. destruct c as [[] [] [] [] [] [] [] []]; reflexivity. Qed.

Lemma lower_idempotent (s : string) : lower (lower s) = lower s.
Proof.
  induction s as [|c s IH]; simpl; [reflexivity|].
  by rewrite lower_ascii_idempotent, IH.
Qed.

Lemma handle_error_history (self : SelfHealingSystem) (call : ErrorCall) :
  incident_history
    (handle_error self (call_error_type call) (call_message call)
       (call_context call) (call_time call)).2 =
  (incident_history self ++ [incident_of call])%list.
Proof.
  unfold handle_error. rewrite analyze_error_can_recover. simpl.
  rewrite insert_app_r_alt by lia. rewrite Nat.sub_diag. simpl.
  unfold incident_of.
  by rewrite (proj2 (execute_recovery_recovers _)).
Qed.

(** X1.  A call of [handle_error] adds exactly one incident, at the end of
    the history, and leaves the earlier incidents as they were.  The
    incident it adds carries the error, is marked resolved and records the
    recovery method: the update made after the recovery lands in the
    dictionary that was appended before it. *)
Theorem handle_error_appends_resolved_incident
    (self : SelfHealingSystem) (call : ErrorCall) :
  let self' :=
    (handle_error self (call_error_type call) (call_message call)
       (call_context call) (call_time call)).2 in
  incident_history self' = (incident_history self ++ [incident_of call])%list /\
  length (incident_history self') = S (length (incident_history self)) /\
  (forall (i : nat) (incident : Incident),
     incident_history self !! i = Some incident ->
     incident_history self' !! i = Some incident) /\
  last (incident_history self') = Some (incident_of call).
Proof.
  intros self'. unfold self'. rewrite handle_error_history.
  split; [reflexivity|]. split; [|split].
  - rewrite length_app. simpl. lia.
  - intros i incident Hi. by apply lookup_app_l_Some.
  - apply last_snoc.
Qed.

Lemma handle_error_appends_witness :
  let earlier :=
    {| timestamp := "2024-01-01T09:00:00"; error_type := "OSError";
       context := "device_detection"; message := "usb unplugged";
       resolved := true; incident_recovery_method := Some "usb_connection_reset" |} in
  let call :=
    {| call_error_type := "TimeoutError"; call_message := "connection timeout";
       call_context := "unlock_process"; call_time := "2024-01-01T10:00:00" |} in
  incident_history
    (handle_error {| incident_history := [earlier] |} (call_error_type call)
       (call_message call) (call_context call) (call_time call)).2 !! 0 = Some earlier.
Proof.
  intros earlier call.
  destruct (handle_error_appends_resolved_incident {| incident_history := [earlier] |} call)
    as (_ & _ & Hkept & _).
  apply Hkept. reflexivity.
Defined.

Lemma handle_errors_history (calls : list ErrorCall) (self : SelfHealingSystem) :
  incident_history (handle_errors calls self) =
  (incident_history self ++ (incident_of <$> calls))%list.
Proof.
  revert self. induction calls as [|call calls IH]; intros self; simpl.
  - by rewrite app_nil_r.
  - unfold handle_errors in *. simpl. rewrite IH.
    rewrite handle_error_history.
    by rewrite <- app_assoc.
Qed.

Lemma filter_resolved_all (l : list Incident) :
  Forall (fun i => resolved i = true) l ->
  filter (fun i => resolved i = true) l = l.
Proof.
  induction 1 as [|i l Hi _ IH]; [reflexivity|].
  rewrite filter_cons_True by done. by rewrite IH.
Qed.

(** X2.  However many errors a fresh system has handled, every incident of
    its history is resolved, in the order of the calls; the status then
    reports as many incidents as there were calls and, once there is one, a
    success rate of 1. *)
Theorem status_after_handling_errors
    (recovery_methods : gmap string (list string)) (calls : list ErrorCall) :
  calls <> [] ->
  incident_history (handle_errors calls SelfHealingSystem_init) = incident_of <$> calls /\
  Forall (fun i => resolved i = true)
    (incident_history (handle_errors calls SelfHealingSystem_init)) /\
  incidents_handled (get_status recovery_methods (handle_errors calls SelfHealingSystem_init))
    = length calls /\
  (success_rate (get_status recovery_methods (handle_errors calls SelfHealingSystem_init))
     == 1)%Q.
Proof.
  intros Hne. rewrite handle_errors_history. simpl.
  assert (Forall (fun i => resolved i = true) (incident_of <$> calls)) as Hall.
  { apply Forall_fmap, Forall_forall. by intros call _. }
  split; [reflexivity|]. split; [exact Hall|].
  unfold get_status. simpl. rewrite handle_errors_history. simpl.
  split; [by rewrite length_fmap|].
  rewrite (filter_resolved_all _ Hall), length_fmap.
  destruct calls as [|call calls]; [done|]. simpl length.
  rewrite Nat.max_l by lia.
  apply Qmult_inv_r. unfold inject_Z, Qeq. simpl. lia.
Qed.

Lemma status_after_handling_errors_witness :
  let calls :=
    [{| call_error_type := "TimeoutError"; call_message := "connection timeout";
        call_context := "unlock_process"; call_time := "2024-01-01T10:00:00" |};
     {| call_error_type := "ValueError"; call_message := "bad state";
        call_context := "device_detection"; call_time := "2024-01-01T10:05:00" |}] in
  incidents_handled (get_status ∅ (handle_errors calls SelfHealingSystem_init)) = 2 /\
  (success_rate (get_status ∅ (handle_errors calls SelfHealingSystem_init)) == 1)%Q.
Proof.
  intros calls.
  destruct (status_after_handling_errors ∅ calls) as (_ & _ & Hn & Hrate).
  - discriminate.
  - split; [exact Hn|exact Hrate].
Defined.

(** X3.  Whatever the history holds, the success rate of the status lies
    between 0 and 1; for an empty history it is 0, and nothing is divided by
    zero. *)
Theorem success_rate_is_a_proportion
    (recovery_methods : gmap string (list string)) (self : SelfHealingSystem) :
  (0 <= success_rate (get_status recovery_methods self) <= 1)%Q /\
  (success_rate (get_status recovery_methods SelfHealingSystem_init) == 0)%Q.
Proof.
  split; [|reflexivity].
  unfold get_status. simpl.
  set (l := incident_history self).
  pose proof (length_filter (fun i => resolved i = true) l) as Hle.
  set (a := length (filter (fun i => resolved i = true) l)) in *.
  set (b := Nat.max (length l) 1).
  assert (a <= b) as Hab by (unfold b; lia).
  assert (1 <= b) as Hb by (unfold b; lia).
  assert (0 < inject_Z (Z.of_nat b))%Q as Hpos.
  { unfold Qlt, inject_Z. simpl. lia. }
  split.
  - apply Qle_shift_div_l; [exact Hpos|].
    rewrite Qmult_0_l. unfold Qle, inject_Z. simpl. lia.
  - apply Qle_shift_div_r; [exact Hpos|].
    rewrite Qmult_1_l. unfold Qle, inject_Z. simpl. lia.
Qed.

(** X4.  The recent activity of the status is the end of the history: at
    most five incidents, the latest ones, in their order; all of them when
    the history has five or fewer. *)
Theorem recent_activity_is_the_last_five
    (recovery_methods : gmap string (list string)) (self : SelfHealingSystem) :
  length (recent_activity (get_status recovery_methods self)) =
    Nat.min 5 (length (incident_history self)) /\
  exists older,
    incident_history self =
      (older ++ recent_activity (get_status recovery_methods self))%list /\
    length older = length (incident_history self) - 5.
Proof.
  unfold get_status. cbn [recent_activity].
  destruct (incident_history self) as [|i l] eqn:Hl.
  - split; [reflexivity|]. by exists [].
  - cbv beta iota. rewrite <- Hl. unfold last_n. split.
    + rewrite length_drop. lia.
    + exists (take (length (incident_history self) - 5) (incident_history self)).
      split; [by rewrite take_drop|].
      rewrite length_take. lia.
Qed.

(** X5.  [_execute_recovery] never fails: for every plan, whatever its
    method, the result has [success] and [recovered] set, repeats the
    method and the confidence of the plan and has no error; a method that
    is not one of the four it knows by name is run as the generic retry. *)
Theorem execute_recovery_always_succeeds (recovery_plan : Analysis) :
  success (_execute_recovery recovery_plan) = true /\
  recovered (_execute_recovery recovery_plan) = true /\
  recovery_method (_execute_recovery recovery_plan) = Some (method recovery_plan) /\
  result_confidence (_execute_recovery recovery_plan) = Some (confidence recovery_plan) /\
  error (_execute_recovery recovery_plan) = None /\
  (method recovery_plan ∉ named_methods ->
   action (_execute_recovery recovery_plan) = Some "Generic retry").
Proof.
  unfold _execute_recovery, named_methods.
  destruct (String.eqb_spec (method recovery_plan) "usb_connection_reset");
    [repeat split; set_solver|].
  destruct (String.eqb_spec (method recovery_plan) "driver_reinstallation");
    [repeat split; set_solver|].
  destruct (String.eqb_spec (method recovery_plan) "communication_retry");
    [repeat split; set_solver|].
  destruct (String.eqb_spec (method recovery_plan) "alternative_unlock_method");
    [repeat split; set_solver|].
  repeat split.
Qed.

Lemma execute_recovery_witness :
  action
    (_execute_recovery
       {| can_recover := true; method := "protocol_switch"; confidence := 4 # 10;
          estimated_time := "1 minute"; manual_suggestions := [] |}) =
    Some "Generic retry".
Proof.
  apply (execute_recovery_always_succeeds
           {| can_recover := true; method := "protocol_switch"; confidence := 4 # 10;
              estimated_time := "1 minute"; manual_suggestions := [] |}).
  apply (bool_decide_unpack _). vm_compute. exact I.
Defined.

(** X6.  Whatever the error, the classifier answers with one of its five
    rows (method, confidence, estimated time); the confidence lies between
    0.5 and 0.9; manual suggestions come with the generic retry and with no
    other method. *)
Theorem analyze_error_answers_from_table (error_type context message : string) :
  let analysis := _analyze_error error_type context message in
  (method analysis, confidence analysis, estimated_time analysis) ∈ classification_table /\
  (5 # 10 <= confidence analysis <= 9 # 10)%Q /\
  (manual_suggestions analysis <> [] <-> method analysis = "generic_retry").
Proof.
  unfold _analyze_error, classification_table.
  repeat match goal with |- context [if ?c then _ else _] => destruct c end;
    simpl; (split; [set_solver|]); (split; [split; discriminate|]);
    split; (discriminate || done).
Qed.

(** X7.  The classifier does not look at the context, and reads the message
    without regard to letter case: a message and its lower-case form are
    classified alike. *)
Theorem analyze_error_ignores_case_and_context
    (error_type context context' message : string) :
  _analyze_error error_type context (lower message) =
  _analyze_error error_type context' message.
Proof. unfold _analyze_error. by rewrite lower_idempotent. Qed.

End SelfHealingHistoryFacts.

(** ** Sorting is stable *)

Section SortingStability.
Context {A : Type} (key : A -> Q).

Lemma insert_desc_filter (p : Q) (x : A) (l : list A) :
  filter (fun y => Qeq_bool (key y) p = true) (insert_desc key x l) =
  filter (fun y => Qeq_bool (key y) p = true) (x :: l).
Proof.
  induction l as [|y l IH]; simpl; [reflexivity|].
  destruct (Qle_bool (key y) (key x)) eqn:Hle; [reflexivity|].
  rewrite (filter_cons _ y), IH, !(filter_cons _ x), !(filter_cons _ y).
  destruct (decide (Qeq_bool (key x) p = true)) as [Hx|Hx];
    destruct (decide (Qeq_bool (key y) p = true)) as [Hy|Hy]; try reflexivity.
  apply Qeq_bool_iff in Hx, Hy.
  assert (key y <= key x)%Q as Hyx by (rewrite Hx, Hy; apply Qle_refl).
  apply Qle_bool_iff in Hyx. congruence.
Qed.

(** entries with the same key come out in the order they went in *)
Lemma sorted_desc_stable (p : Q) (l : list A) :
  filter (fun y => Qeq_bool (key y) p = true) (sorted_desc key l) =
  filter (fun y => Qeq_bool (key y) p = true) l.
Proof.
  induction l as [|x l IH]; simpl; [reflexivity|].
  rewrite insert_desc_filter, !filter_cons, IH. reflexivity.
Qed.

End SortingStability.

(** ** The strategy planner: the other rules, risks, fallbacks *)

Section PlannerExtraFacts.
Import Strategic.

Lemma existsb_eq_str_iff s (l : list Value) :
  existsb (eq_str s) l = true <-> VStr s ∈ l.
Proof.
  split; [|apply existsb_eq_str].
  intros H. apply existsb_exists in H as (v & Hin & Heq).
  destruct v; try discriminate. simpl in Heq.
  apply String.eqb_eq in Heq as <-. by apply list_elem_of_In.
Qed.

Lemma existsb_eq_str_false s (l : list Value) :
  existsb (eq_str s) l = false <-> VStr s ∉ l.
Proof.
  rewrite <- existsb_eq_str_iff. destruct (existsb (eq_str s) l); split; congruence.
Qed.

(** X8.  The rules after the first.  For an analysis whose locks are a list
    and whose manufacturer is a string, when the first rule does not apply:
    [frp_lock] on a google device selects [VULNERABILITY_EXPLOIT]; otherwise
    [icloud_lock] selects [CUSTOM_TOOL]; otherwise more than two locks
    select [COMBINATION]; otherwise [DIRECT_BYPASS]. *)
Theorem selection_rules_after_the_first
    (device_analysis : Value) (locks : list Value) (manufacturer : string) :
  locks_of device_analysis = Ok (VList locks) ->
  manufacturer_of device_analysis = Ok (VStr manufacturer) ->
  ~ (VStr "bootloader_lock" ∈ locks /\ lower manufacturer = "samsung") ->
  (VStr "frp_lock" ∈ locks /\ lower manufacturer = "google" ->
   _select_optimal_strategy device_analysis = VULNERABILITY_EXPLOIT) /\
  (~ (VStr "frp_lock" ∈ locks /\ lower manufacturer = "google") ->
   (VStr "icloud_lock" ∈ locks ->
    _select_optimal_strategy device_analysis = CUSTOM_TOOL) /\
   (VStr "icloud_lock" ∉ locks ->
    (2 < length locks -> _select_optimal_strategy device_analysis = COMBINATION) /\
    (length locks <= 2 -> _select_optimal_strategy device_analysis = DIRECT_BYPASS))).
Proof.
  intros Hlocks Hman Hfirst. unfold _select_optimal_strategy.
  rewrite Hlocks, Hman.
  unfold except, mbind, Outcome_bind, bind; simpl.
  assert (existsb (eq_str "bootloader_lock") locks &&
            String.eqb (lower manufacturer) "samsung" = false) as ->.
  { apply not_true_is_false. intros [H1 H2]%andb_true_iff.
    apply Hfirst. split; [by apply existsb_eq_str_iff|by apply String.eqb_eq]. }
  split.
  - intros [Hfrp Hgoogle].
    by rewrite (existsb_eq_str _ _ Hfrp), Hgoogle.
  - intros Hsecond.
    assert (existsb (eq_str "frp_lock") locks &&
              String.eqb (lower manufacturer) "google" = false) as ->.
    { apply not_true_is_false. intros [H1 H2]%andb_true_iff.
      apply Hsecond. split; [by apply existsb_eq_str_iff|by apply String.eqb_eq]. }
    split.
    + intros Hicloud. by rewrite (existsb_eq_str _ _ Hicloud).
    + intros Hicloud. apply existsb_eq_str_false in Hicloud. rewrite Hicloud.
      split; intros Hlen.
      * by apply Nat.ltb_lt in Hlen as ->.
      * apply Nat.nlt_ge, Nat.ltb_nlt in Hlen. by rewrite Hlen.
Qed.

Lemma selection_rules_after_the_first_witness :
  _select_optimal_strategy (analysis_of "Google" ["bootloader_lock"; "frp_lock"]) =
    VULNERABILITY_EXPLOIT.
Proof.
  refine (proj1 (selection_rules_after_the_first
                   (analysis_of "Google" ["bootloader_lock"; "frp_lock"])
                   (VStr <$> ["bootloader_lock"; "frp_lock"]) "Google"
                   eq_refl eq_refl _) _).
  - intros [_ H]. discriminate H.
  - split; [simpl; set_solver|reflexivity].
Defined.

(** X9.  An analysis that cannot be read (it is no dictionary, its
    [lock_detection] or [device_identification] is none, its manufacturer is
    no string, its locks are no container) never makes strategy selection
    raise: the handler answers [DIRECT_BYPASS]. *)
Theorem malformed_analysis_selects_direct_bypass (device_analysis : Value) :
  malformed device_analysis ->
  _select_optimal_strategy device_analysis = DIRECT_BYPASS.
Proof.
  unfold malformed, _select_optimal_strategy, except, mbind, Outcome_bind, bind.
  intros [(e & ->) | [(e & ->) | [(v & e & -> & Hv) | (v & e & -> & Hv)]]].
  - reflexivity.
  - by destruct (locks_of device_analysis).
  - destruct (locks_of device_analysis); [|reflexivity]. by rewrite Hv.
  - destruct (manufacturer_of device_analysis) as [m|]; [|reflexivity].
    destruct (str_lower m); [|reflexivity]. by rewrite Hv.
Qed.

Lemma malformed_analysis_witness :
  _select_optimal_strategy
    (VDict (<["lock_detection" := VDict (<["locks" := VList [VStr "icloud_lock"]]> ∅)]>
           (<["device_identification" := VDict (<["manufacturer" := VNone]> ∅)]> ∅)))
  = DIRECT_BYPASS.
Proof.
  apply malformed_analysis_selects_direct_bypass.
  right. right. left. exists VNone, AttributeError. split; reflexivity.
Defined.

(** closed goals about the enumeration, settled by evaluation *)
Ltac by_evaluation := apply (bool_decide_unpack _); vm_compute; exact I.

(** membership in a list written out *)
Ltac in_written_list :=
  first [reflexivity | apply list_elem_of_here | apply list_elem_of_further, list_elem_of_here].

Lemma members_NoDup : NoDup members.
Proof. by_evaluation. Qed.

Lemma members_complete (s : UnlockStrategy) : s ∈ members.
Proof. destruct s; by_evaluation. Qed.

Lemma alt_strategy_alternative_for (h : Helpers) (a : Value) (l : list UnlockStrategy) :
  alt_strategy <$> (alternative_for h a <$> l) = l.
Proof. induction l as [|s l IH]; [reflexivity|]. rewrite !fmap_cons. by f_equal. Qed.

Lemma alternative_strategies_perm (h : Helpers) (device_id : string) :
  alt_strategy <$> get_alternatives h device_id ≡ₚ
  filter (fun s => s <> _select_optimal_strategy (_get_device_analysis h device_id))
    members.
Proof.
  by rewrite get_alternatives_perm, alt_strategy_alternative_for.
Qed.

(** X10.  The alternatives hold every strategy other than the primary
    exactly once.  [RECOVERY_MODE], which selection never makes the primary,
    is therefore always among them. *)
Theorem alternatives_offer_each_other_strategy_once
    (h : Helpers) (device_id : string) :
  NoDup (alt_strategy <$> get_alternatives h device_id) /\
  (forall s,
     s ∈ alt_strategy <$> get_alternatives h device_id <->
     s <> _select_optimal_strategy (_get_device_analysis h device_id)) /\
  RECOVERY_MODE ∈ alt_strategy <$> get_alternatives h device_id.
Proof.
  assert (forall s,
            s ∈ alt_strategy <$> get_alternatives h device_id <->
            s <> _select_optimal_strategy (_get_device_analysis h device_id)) as Hiff.
  { intros s. rewrite alternative_strategies_perm, list_elem_of_filter.
    split; [by intros [? _]|]. intros Hs. split; [done|].
    apply members_complete. }
  split; [|split; [exact Hiff|]].
  - rewrite alternative_strategies_perm.
    apply NoDup_filter, members_NoDup.
  - apply Hiff. intros H. symmetry in H. by apply select_not_recovery_mode in H.
Qed.

(** X11.  A plan has exactly two fallbacks, with different strategies, and
    they are the first two strategies of the enumeration that are not the
    primary: [BOOTLOADER_ACCESS], [CUSTOM_TOOL] and [COMBINATION] are never
    fallbacks, whatever success probabilities are computed. *)
Theorem fallbacks_are_the_first_two_others (h : Helpers) (device_analysis : Value) :
  fb_strategy <$> _prepare_fallback_strategies h device_analysis ≡ₚ
    take 2 (filter (fun s => s <> _select_optimal_strategy device_analysis) members) /\
  length (_prepare_fallback_strategies h device_analysis) = 2 /\
  NoDup (fb_strategy <$> _prepare_fallback_strategies h device_analysis) /\
  Forall (fun s => s ∈ [DIRECT_BYPASS; VULNERABILITY_EXPLOIT; RECOVERY_MODE])
    (fb_strategy <$> _prepare_fallback_strategies h device_analysis).
Proof.
  assert (fb_strategy <$> _prepare_fallback_strategies h device_analysis ≡ₚ
          take 2 (filter (fun s => s <> _select_optimal_strategy device_analysis)
                    members)) as Hperm.
  { unfold _prepare_fallback_strategies. rewrite sorted_desc_perm.
    generalize (take 2 (filter (fun s => s <> _select_optimal_strategy device_analysis)
                          members)).
    intros l. induction l as [|s l IH]; [reflexivity|].
    rewrite !fmap_cons. by f_equiv. }
  split; [exact Hperm|]. split; [|split].
  - rewrite <- (length_fmap fb_strategy), Hperm.
    by destruct (_select_optimal_strategy device_analysis).
  - rewrite Hperm.
    destruct (_select_optimal_strategy device_analysis); by_evaluation.
  - rewrite Hperm.
    destruct (_select_optimal_strategy device_analysis); by_evaluation.
Qed.

(** X12.  Alternatives are ranked stably: those with the same success
    probability follow one another in the order of the enumeration. *)
Theorem alternatives_with_equal_probability_keep_enumeration_order
    (h : Helpers) (device_id : string) (p : Q) :
  filter (fun alt => Qeq_bool (alt_success_probability alt) p = true)
    (get_alternatives h device_id) =
  filter (fun alt => Qeq_bool (alt_success_probability alt) p = true)
    (alternative_for h (_get_device_analysis h device_id) <$>
       filter (fun s => s <> _select_optimal_strategy (_get_device_analysis h device_id))
         members).
Proof.
  unfold get_alternatives. rewrite remove_from_members.
  apply sorted_desc_stable.
Qed.

Lemma eq_str_iff (s : string) (v : Value) : eq_str s v = true <-> v = VStr s.
Proof.
  destruct v; simpl; try (split; [discriminate|congruence]).
  rewrite String.eqb_eq. split; congruence.
Qed.

(** X13.  Risk assessment never raises and never leaves its few values: the
    warranty is always reported void, the brick probability is 0 or 0.3 and
    the data-loss probability 0 or 0.1.  When the analysis cannot be read
    (reading the locks or the manufacturer raises, or the locks are no
    container) the result is the initial record, with no security risks and
    no recommendations, whatever the helpers would have supplied. *)
Theorem assess_risks_total_and_bounded (h : Helpers) (device_analysis : Value) :
  warranty_void (_assess_risks h device_analysis) = true /\
  brick_probability (_assess_risks h device_analysis) ∈ [0%Q; 3 # 10] /\
  data_loss_probability (_assess_risks h device_analysis) ∈ [0%Q; 1 # 10] /\
  ((exists e, locks_of device_analysis = Raise e) \/
   (exists e, manufacturer_of device_analysis = Raise e) \/
   (exists v e, locks_of device_analysis = Ok v /\
                str_in "bootloader_lock" v = Raise e) ->
   _assess_risks h device_analysis = initial_risks).
Proof.
  unfold _assess_risks, except, mbind, Outcome_bind, bind.
  destruct (manufacturer_of device_analysis) as [device_type|e1].
  - destruct (locks_of device_analysis) as [locks|e2].
    + destruct (str_in "bootloader_lock" locks) as [has_bootloader|e3] eqn:Hb.
      * assert (exists has_frp, str_in "frp_lock" locks = Ok has_frp) as [has_frp ->].
        { destruct locks; try discriminate; simpl; eauto. }
        simpl. split; [reflexivity|]. split; [|split].
        -- destruct has_bootloader; in_written_list.
        -- destruct (has_frp && eq_str "samsung" device_type); in_written_list.
        -- intros [(e & ?) | [(e & ?) | (v & e & [= <-] & Hv)]]; congruence.
      * simpl. repeat split; try in_written_list.
    + simpl. repeat split; try in_written_list.
  - simpl. repeat split; try in_written_list.
Qed.

Lemma assess_risks_witness :
  _assess_risks (one_step_helpers VNone) (VStr "no analysis") = initial_risks.
Proof.
  apply (assess_risks_total_and_bounded (one_step_helpers VNone) (VStr "no analysis")).
  left. exists AttributeError. reflexivity.
Defined.

(** X14.  For an analysis whose locks are a list: the brick probability is
    0.3 exactly when [bootloader_lock] is among the locks, and the data-loss
    probability is 0.1 exactly when [frp_lock] is among them and the
    manufacturer is the string "samsung" as written (here the manufacturer
    is not lower-cased); the security risks and the recommendations are
    those of the helpers. *)
Theorem assess_risks_table
    (h : Helpers) (device_analysis : Value) (locks : list Value) (manufacturer : Value) :
  locks_of device_analysis = Ok (VList locks) ->
  manufacturer_of device_analysis = Ok manufacturer ->
  (brick_probability (_assess_risks h device_analysis) = 3 # 10 <->
   VStr "bootloader_lock" ∈ locks) /\
  (data_loss_probability (_assess_risks h device_analysis) = 1 # 10 <->
   VStr "frp_lock" ∈ locks /\ manufacturer = VStr "samsung") /\
  security_risks (_assess_risks h device_analysis) =
    _identify_security_risks h device_analysis /\
  recommendations (_assess_risks h device_analysis) =
    _generate_risk_recommendations h
      {| data_loss_probability := data_loss_probability (_assess_risks h device_analysis);
         brick_probability := brick_probability (_assess_risks h device_analysis);
         warranty_void := true;
         security_risks := _identify_security_risks h device_analysis;
         recommendations := [] |}.
Proof.
  intros Hlocks Hman. unfold _assess_risks. rewrite Hlocks, Hman.
  unfold except, mbind, Outcome_bind, bind; simpl.
  split; [|split; [|split; reflexivity]].
  - rewrite <- existsb_eq_str_iff.
    destruct (existsb (eq_str "bootloader_lock") locks); split; (done || discriminate).
  - rewrite <- existsb_eq_str_iff, <- eq_str_iff, <- andb_true_iff.
    destruct (existsb (eq_str "frp_lock") locks && eq_str "samsung" manufacturer);
      split; (done || discriminate).
Qed.

Lemma assess_risks_table_witness :
  brick_probability
    (_assess_risks stubs (analysis_of "Samsung" ["frp_lock"; "bootloader_lock"])) = 3 # 10 /\
  data_loss_probability
    (_assess_risks stubs (analysis_of "Samsung" ["frp_lock"; "bootloader_lock"])) <> 1 # 10.
Proof.
  destruct (assess_risks_table stubs
              (analysis_of "Samsung" ["frp_lock"; "bootloader_lock"])
              (VStr <$> ["frp_lock"; "bootloader_lock"]) (VStr "Samsung")
              eq_refl eq_refl) as (Hbrick & Hloss & _).
  split.
  - apply Hbrick. simpl. in_written_list.
  - intros H. apply Hloss in H as [_ H]. discriminate H.
Defined.

End PlannerExtraFacts.

(** ** Dispatch *)

Section DispatchFacts.
Import Agents.

Lemma execute_step_without_worker (self : DeepAgents) (step step_type : Value) :
  get step "type" (VStr "") = Ok step_type ->
  hashable step_type = true ->
  agents self !! agent_key_of step_type = None ->
  _execute_step step self =
    (Ok (no_agent_result step_type),
     {| agents := agents self; clock := clock self;
        journal :=
          (journal self ++ [Dispatched step (Ok (no_agent_result step_type))])%list |}).
Proof.
  intros Htype Hhash Hnone.
  unfold _execute_step, journaled. rewrite Htype.
  unfold _select_agent_for_step. rewrite Hhash.
  unfold agent_key_of in Hnone. rewrite Hnone. reflexivity.
Qed.

(** X15.  A step whose type has no worker (the type is not in the routing
    table, or no worker is registered under the key it routes to) does not
    raise: the result is [{"success": False, "error": "No agent available
    for step type: ..."}], and neither the workers nor the clock change. *)
Theorem step_without_worker_fails_softly
    (self : DeepAgents) (step step_type : Value) :
  get step "type" (VStr "") = Ok step_type ->
  hashable step_type = true ->
  agents self !! agent_key_of step_type = None ->
  (_execute_step step self).1 = Ok (no_agent_result step_type) /\
  failed (no_agent_result step_type) = Ok true /\
  agents (_execute_step step self).2 = agents self /\
  clock (_execute_step step self).2 = clock self.
Proof.
  intros Htype Hhash Hnone.
  rewrite (execute_step_without_worker _ _ _ Htype Hhash Hnone).
  repeat split.
Qed.

Lemma step_without_worker_witness :
  let pool :=
    {| agents := <["vulnerability_exploit" := VulnerabilityExploitAgent]> ∅;
       clock := 0; journal := [] |} in
  let step := step_of_type "usb_communication" in
  (_execute_step step pool).1 =
    Ok (failure "No agent available for step type: usb_communication") /\
  agents (_execute_step step pool).2 = agents pool.
Proof.
  intros pool step.
  destruct (step_without_worker_fails_softly pool step (VStr "usb_communication")
              eq_refl eq_refl eq_refl) as (Hresult & _ & Hagents & _).
  split; [exact Hresult|exact Hagents].
Defined.



Lemma failed_no_agent_result (step_type : Value) :
  failed (no_agent_result step_type) = Ok true.
Proof. reflexivity. Qed.

Lemma error_of_no_agent_result (step_type : Value) :
  get (no_agent_result step_type) "error" (VStr "") =
    Ok (VStr (no_agent_message step_type)).
Proof. reflexivity. Qed.

(** X17.  Retrying a step that has no worker never helps.  Its failure is
    retried when the error text (which repeats the step type) contains
    "usb" or "vulnerability", and then the retry returns the very same
    failure; otherwise it is not retried.  Either way the workers and the
    clock are as before. *)
Theorem retry_without_worker_repeats_the_failure
    (self : DeepAgents) (step step_type : Value) (results : list Value) :
  get step "type" (VStr "") = Ok step_type ->
  hashable step_type = true ->
  agents self !! agent_key_of step_type = None ->
  (loop_body step results self).1 =
    Ok (results ++
          if recoverable_text (no_agent_message step_type)
          then [no_agent_result step_type; retry_entry (no_agent_result step_type)]
          else [no_agent_result step_type])%list /\
  agents (loop_body step results self).2 = agents self /\
  clock (loop_body step results self).2 = clock self.
Proof.
  intros Htype Hhash Hnone.
  rewrite (loop_body_after_first_attempt _ _ _ _ _
             (execute_step_without_worker _ _ _ Htype Hhash Hnone)).
  rewrite failed_no_agent_result.
  unfold _trigger_self_healing.
  rewrite (analyze_failure_of_message _ _ _ (error_of_no_agent_result step_type)).
  unfold recoverable_text, mbind, Outcome_bind, bind.
  destruct (contains "usb" (lower (no_agent_message step_type)));
    destruct (contains "vulnerability" (lower (no_agent_message step_type)));
    cbn [orb can_recover recovered _execute_recovery_plan];
    try (split; [reflexivity|by split]);
    match goal with
    | |- context [_execute_step step ?s] =>
        rewrite (execute_step_without_worker s step step_type Htype Hhash Hnone)
    end;
    (split; [|by split]); cbn [fst]; f_equal; by rewrite <- app_assoc.
Qed.

Lemma retry_without_worker_witness :
  let pool := initialize (fun _ => 7%Z) DeepAgents_init in
  let step := step_of_type "usb_debugging" in
  (loop_body step [] pool).1 =
    Ok [failure "No agent available for step type: usb_debugging";
        retry_entry (failure "No agent available for step type: usb_debugging")] /\
  agents (loop_body step [] pool).2 = agents pool.
Proof.
  intros pool step.
  destruct (retry_without_worker_repeats_the_failure pool step (VStr "usb_debugging") []
              eq_refl eq_refl eq_refl) as (Hresult & Hagents & _).
  split; [exact Hresult|exact Hagents].
Defined.

End DispatchFacts.

(** ** Runs of the orchestrator *)

Section RunFacts.
Import Agents.

(** the report that closes a run with the given entries *)
Lemma execute_unlock_plan_unfold (plan : Value) (self : DeepAgents) (steps : list Value) :
  (steps_value ← get plan "steps" (VList []); iter steps_value) = Ok steps ->
  execute_unlock_plan plan self =
    match for_each steps [] self with
    | (Ok results, self') =>
        match all_success results with
        | Ok all_ok =>
            (Ok {| success := all_ok;
                   steps_executed := length results;
                   detailed_results := results;
                   final_status := if all_ok then "unlocked" else "partially_locked" |},
             self')
        | Raise e => (Raise e, self')
        end
    | (Raise e, self') => (Raise e, self')
    end.
Proof.
  unfold execute_unlock_plan, bindM, lift, ret, mbind, Outcome_bind, bind.
  destruct (get plan "steps" (VList [])) as [steps_value|e]; [|discriminate].
  intros ->.
  destruct (for_each steps [] self) as [[results|e] self']; [|reflexivity].
  destruct (all_success results); reflexivity.
Qed.

Lemma steps_of_plan_of (steps : list Value) :
  (steps_value ← get (plan_of steps) "steps" (VList []); iter steps_value) = Ok steps.
Proof.
  unfold plan_of, get, dict_get, mbind, Outcome_bind, bind.
  by rewrite lookup_insert_eq.
Qed.

Lemma for_each_first_raises
    (step : Value) (rest results : list Value) (self self1 : DeepAgents) (e : Exn) :
  _execute_step step self = (Raise e, self1) ->
  for_each (step :: rest) results self = (Raise e, self1).
Proof.
  intros Hfirst. cbn [for_each]. unfold loop_body, bindM. by rewrite Hfirst.
Qed.

(** X18.  A plan without steps (no "steps" entry, or an empty one) is
    reported as a success: [success = True], "unlocked", no step executed,
    and the orchestrator is left untouched, whatever workers it has. *)
Theorem plan_without_steps_is_reported_unlocked (plan : Value) (self : DeepAgents) :
  (steps_value ← get plan "steps" (VList []); iter steps_value) = Ok [] ->
  execute_unlock_plan plan self = (Ok empty_report, self).
Proof.
  unfold execute_unlock_plan, bindM, lift, mbind, Outcome_bind, bind.
  destruct (get plan "steps" (VList [])) as [steps_value|e]; [|discriminate].
  intros ->. reflexivity.
Qed.

Lemma plan_without_steps_witness :
  execute_unlock_plan (VDict ∅) (initialize (fun _ => 7%Z) DeepAgents_init) =
    (Ok empty_report, initialize (fun _ => 7%Z) DeepAgents_init).
Proof. apply plan_without_steps_is_reported_unlocked. reflexivity. Defined.

(** X19.  Planning and execution together, as the source has them: the plan
    that [create_unlock_plan] builds with the helpers of the source has no
    steps, so executing it (the plan dictionary with that list under
    "steps") dispatches nothing and reports "unlocked", for every device and
    every orchestrator. *)
Theorem shipped_plan_runs_no_step
    (device_id method : string) (plan : Strategic.Plan)
    (plan_dict : Value) (self : DeepAgents) :
  Strategic.create_unlock_plan Strategic.stubs device_id method = Ok plan ->
  get plan_dict "steps" (VList []) = Ok (VList (Strategic.steps plan)) ->
  execute_unlock_plan plan_dict self = (Ok empty_report, self).
Proof.
  intros [= <-] Hsteps.
  rewrite (execute_unlock_plan_unfold plan_dict self []); [reflexivity|].
  rewrite Hsteps. reflexivity.
Qed.

Lemma shipped_plan_runs_no_step_witness :
  execute_unlock_plan (plan_of []) (initialize (fun _ => 7%Z) DeepAgents_init) =
    (Ok empty_report, initialize (fun _ => 7%Z) DeepAgents_init).
Proof.
  eapply (shipped_plan_runs_no_step "device-1" "auto"); reflexivity.
Defined.

(** X20.  An exception of a worker ends the run.  When the worker of the
    first step raises, [execute_unlock_plan] raises that exception: there is
    no report, the worker is left in status [error], and none of the later
    steps is dispatched. *)
Theorem worker_exception_aborts_the_run
    (self : DeepAgents) (step step_type : Value) (rest : list Value)
    (agent : DeepAgent) (e : Exn) :
  get step "type" (VStr "") = Ok step_type ->
  hashable step_type = true ->
  agents self !! agent_key_of step_type = Some agent ->
  _perform_task (set_status working agent) (clock self) step = Raise e ->
  (execute_unlock_plan (plan_of (step :: rest)) self).1 = Raise e /\
  journal (execute_unlock_plan (plan_of (step :: rest)) self).2 =
    (journal self ++ [Dispatched step (Raise e)])%list /\
  agents (execute_unlock_plan (plan_of (step :: rest)) self).2 !! agent_key_of step_type =
    Some (set_status error agent).
Proof.
  intros Htype Hhash Hsome Hraise.
  assert (_execute_step step self =
            (Raise e,
             {| agents := <[agent_key_of step_type := set_status error agent]> (agents self);
                clock := S (clock self);
                journal := (journal self ++ [Dispatched step (Raise e)])%list |}))
    as Hfirst.
  { unfold _execute_step, journaled. rewrite Htype.
    unfold _select_agent_for_step. rewrite Hhash.
    unfold agent_key_of in *. rewrite Hsome. simpl.
    unfold execute_task. by rewrite Hraise. }
  rewrite (execute_unlock_plan_unfold _ _ _ (steps_of_plan_of (step :: rest))).
  rewrite (for_each_first_raises _ rest [] _ _ _ Hfirst). simpl.
  split; [reflexivity|]. split; [reflexivity|]. by rewrite lookup_insert_eq.
Qed.

Lemma worker_exception_witness :
  let pool :=
    {| agents := <["usb_communication" := DeepAgent_init "base_agent" []]> ∅;
       clock := 0; journal := [] |} in
  let plan := plan_of [step_of_type "usb_communication"; step_of_type "pattern_analysis"] in
  (execute_unlock_plan plan pool).1 = Raise NotImplementedError /\
  length (journal (execute_unlock_plan plan pool).2) = 1.
Proof.
  intros pool plan.
  destruct (worker_exception_aborts_the_run pool (step_of_type "usb_communication")
              (VStr "usb_communication") [step_of_type "pattern_analysis"]
              (DeepAgent_init "base_agent" []) NotImplementedError
              eq_refl eq_refl eq_refl eq_refl) as (Hout & Hjournal & _).
  split; [exact Hout|]. unfold plan. by rewrite Hjournal.
Defined.

Lemma loop_body_record
    (step : Value) (results results' : list Value) (self self' : DeepAgents) :
  loop_body step results self = (Ok results', self') ->
  exists events entries,
    journal self' = (journal self ++ events)%list /\
    results' = (results ++ entries)%list /\
    step_record step events entries.
Proof.
  pose proof (execute_step_journal step self) as Hj1.
  destruct (_execute_step step self) as [[result|e] self1] eqn:Hfirst; simpl in Hj1.
  - rewrite (loop_body_after_first_attempt _ _ _ _ _ Hfirst).
    destruct (failed result) as [[|]|e] eqn:Hfailed; [| |discriminate].
    + destruct (_trigger_self_healing step result) as [healing|e]; [|discriminate].
      destruct (recovered healing).
      * pose proof (execute_step_journal step self1) as Hj2.
        destruct (_execute_step step self1) as [[retry|e] self2]; [|discriminate].
        simpl in Hj2. intros [= <- <-].
        exists [Dispatched step (Ok result); Dispatched step (Ok retry)],
               [result; retry_entry retry].
        split; [by rewrite Hj2, Hj1, <- app_assoc|].
        split; [by rewrite <- app_assoc|by constructor].
      * intros [= <- <-]. exists [Dispatched step (Ok result)], [result].
        split; [done|]. split; [done|by apply record_failure].
    + intros [= <- <-]. exists [Dispatched step (Ok result)], [result].
      split; [done|]. split; [done|by apply record_success].
  - unfold loop_body, bindM. rewrite Hfirst. discriminate.
Qed.

Lemma for_each_record
    (steps results results' : list Value) (self self' : DeepAgents) :
  for_each steps results self = (Ok results', self') ->
  exists chunks entries,
    journal self' = (journal self ++ concat chunks)%list /\
    results' = (results ++ concat entries)%list /\
    Forall3 step_record steps chunks entries.
Proof.
  revert results self.
  induction steps as [|step steps IH]; intros results self; cbn [for_each].
  - intros [= <- <-]. exists [], []. simpl. rewrite !app_nil_r.
    repeat split; constructor.
  - unfold bindM at 1.
    destruct (loop_body step results self) as [[results1|e] self1] eqn:Hbody;
      [|discriminate].
    intros Hrest.
    destruct (loop_body_record _ _ _ _ _ Hbody) as (events & new & Hj & -> & Hrecord).
    destruct (IH _ _ Hrest) as (chunks & entries & Hj' & -> & Hall).
    exists (events :: chunks), (new :: entries). simpl.
    split; [by rewrite Hj', Hj, <- app_assoc|].
    split; [by rewrite <- app_assoc|by constructor].
Qed.

Lemma step_records_lengths
    (steps : list Value) (chunks : list (list Event)) (entries : list (list Value)) :
  Forall3 step_record steps chunks entries ->
  length (concat chunks) = length (concat entries) /\
  length steps <= length (concat entries) <= 2 * length steps.
Proof.
  induction 1 as [|step events new steps chunks entries Hrecord _ IH]; simpl; [lia|].
  rewrite !length_app. destruct Hrecord; simpl; lia.
Qed.

Lemma execute_unlock_plan_steps (plan : Value) (self self' : DeepAgents) (report : Report) :
  execute_unlock_plan plan self = (Ok report, self') ->
  (steps_value ← get plan "steps" (VList []); iter steps_value) = Ok (steps_of plan).
Proof.
  unfold execute_unlock_plan, steps_of, bindM, lift, except, mbind, Outcome_bind, bind.
  destruct (get plan "steps" (VList [])) as [steps_value|e]; [|discriminate].
  destruct (iter steps_value); [reflexivity|discriminate].
Qed.

(** X21.  The count [steps_executed] of a report counts attempts, not
    steps: it is the number of entries of [detailed_results] and the number
    of calls of [_execute_step] made by the run, at least the number of
    steps of the plan and at most twice that number. *)
Theorem steps_executed_counts_attempts
    (plan : Value) (self self' : DeepAgents) (report : Report) :
  execute_unlock_plan plan self = (Ok report, self') ->
  steps_executed report = length (detailed_results report) /\
  length (journal self') = length (journal self) + steps_executed report /\
  length (steps_of plan) <= steps_executed report <= 2 * length (steps_of plan).
Proof.
  intros Hrun. pose proof (execute_unlock_plan_steps _ _ _ _ Hrun) as Hsteps.
  rewrite (execute_unlock_plan_unfold _ _ _ Hsteps) in Hrun.
  destruct (for_each (steps_of plan) [] self) as [[results|e] self1] eqn:Hloop;
    [|discriminate].
  destruct (all_success results); [|discriminate].
  injection Hrun as <- <-. simpl.
  destruct (for_each_record _ _ _ _ _ Hloop) as (chunks & entries & Hj & -> & Hall).
  destruct (step_records_lengths _ _ _ Hall) as (Hsame & Hbounds).
  simpl. split; [reflexivity|]. split; [|exact Hbounds].
  rewrite Hj, length_app. lia.
Qed.

Lemma steps_executed_counts_attempts_witness :
  let plan := plan_of [step_of_type "usb_communication"] in
  let run := execute_unlock_plan plan (pool_of (flaky_agent "USB handshake failed")) in
  exists report,
    run.1 = Ok report /\
    steps_executed report = 2 /\
    length (journal run.2) = 2 /\
    length (steps_of plan) = 1.
Proof.
  intros plan run.
  destruct run as [[report|e] self'] eqn:Hrun; [|discriminate Hrun].
  exists report.
  destruct (steps_executed_counts_attempts _ _ _ _ Hrun) as (_ & Hjournal & _).
  injection Hrun as <- <-. repeat split.
Defined.







Lemma all_success_passes (results : list Value) :
  Forall passes results -> all_success results = Ok true.
Proof.
  induction 1 as [|result results [Hkey Hfailed] _ IH]; [reflexivity|].
  cbn [all_success]. unfold failed in Hfailed.
  unfold mbind, Outcome_bind, bind in *. rewrite Hkey.
  destruct (get result "success" (VBool false)) as [v|]; [|discriminate].
  destruct (truthy v); [exact IH|discriminate].
Qed.

Lemma shipped_step (random : nat -> Z) (self : DeepAgents) (step : Value) :
  shipped random self ->
  known_step step ->
  exists result self',
    _execute_step step self = (Ok result, self') /\
    passes result /\
    shipped random self' /\
    clock self' = S (clock self).
Proof.
  intros ((usb & Husb & Husb') & (vul & Hvul & Hvul') & (pat & Hpat & Hpat'))
         (d & t & -> & Htype & Hknown).
  assert (get (VDict d) "type" (VStr "") = Ok (VStr t)) as Hget.
  { unfold get, dict_get. by rewrite Htype. }
  unfold _execute_step, journaled. rewrite Hget.
  unfold _select_agent_for_step. cbn [hashable].
  apply list_elem_of_In in Hknown. simpl in Hknown.
  destruct Hknown as [<- | [<- | [<- | [<- | []]]]];
    match goal with
    | |- context [agents self !! ?key] =>
        let k := eval vm_compute in key in change key with k
    end;
    rewrite ?Husb, ?Hvul, ?Hpat; cbn [fmap option_fmap option_map];
    unfold execute_task; cbn [_perform_task set_status];
    rewrite ?Husb', ?Hvul', ?Hpat'; simpl;
    (eexists _, _; split; [reflexivity|]);
    (split; [split; reflexivity|]);
    (split; [|reflexivity]);
    unfold shipped; cbn [agents];
    repeat split; eexists;
    (split; [first [apply lookup_insert_eq
                   |rewrite lookup_insert_ne by discriminate; eassumption]
            |assumption]).
Qed.

Lemma shipped_loop_body
    (random : nat -> Z) (self : DeepAgents) (step : Value) (results : list Value) :
  shipped random self ->
  known_step step ->
  exists result self',
    loop_body step results self = (Ok (results ++ [result])%list, self') /\
    passes result /\
    shipped random self' /\
    clock self' = S (clock self).
Proof.
  intros Hshipped Hknown.
  destruct (shipped_step random self step Hshipped Hknown)
    as (result & self' & Hstep & Hpasses & Hshipped' & Hclock).
  exists result, self'.
  rewrite (loop_body_after_first_attempt _ _ _ _ _ Hstep).
  destruct Hpasses as [Hkey Hfailed]. rewrite Hfailed.
  split; [reflexivity|]. split; [by split|]. by split.
Qed.

Lemma shipped_for_each
    (random : nat -> Z) (steps : list Value) (self : DeepAgents) (results : list Value) :
  shipped random self ->
  Forall known_step steps ->
  Forall passes results ->
  exists results' self',
    for_each steps results self = (Ok results', self') /\
    Forall passes results' /\
    length results' = length results + length steps /\
    shipped random self' /\
    clock self' = clock self + length steps.
Proof.
  intros Hshipped Hknown. revert self results Hshipped.
  induction Hknown as [|step steps Hstep _ IH]; intros self results Hshipped Hpass.
  - exists results, self. simpl.
    split; [reflexivity|]. split; [done|]. split; [lia|]. split; [done|lia].
  - destruct (shipped_loop_body random self step results Hshipped Hstep)
      as (result & self1 & Hbody & Hresult & Hshipped1 & Hclock1).
    destruct (IH self1 (results ++ [result])%list Hshipped1)
      as (results' & self' & Hloop & Hpass' & Hlen & Hshipped' & Hclock').
    { apply Forall_app. split; [done|by constructor]. }
    exists results', self'. cbn [for_each]. unfold bindM at 1. rewrite Hbody.
    rewrite length_app in Hlen. simpl in *.
    split; [exact Hloop|]. split; [done|]. split; [lia|]. split; [done|lia].
Qed.

Lemma initialize_shipped (random : nat -> Z) (self : DeepAgents) :
  shipped random (initialize random self).
Proof.
  unfold shipped, initialize; cbn [agents].
  repeat split; eexists;
    (split; [|reflexivity]);
    repeat first [apply lookup_insert_eq | rewrite lookup_insert_ne by discriminate].
Qed.

(** X23.  With the three workers of [initialize] in place, a plan all of
    whose steps are dictionaries with a type of the routing table runs
    without any failure or retry: the report says [success = True] and
    "unlocked", counts one attempt per step, the clock has advanced by one
    per step, and the three workers are still in place. *)
Theorem known_steps_on_shipped_workers_succeed
    (random : nat -> Z) (self : DeepAgents) (steps : list Value) :
  shipped random self ->
  Forall known_step steps ->
  exists report self',
    execute_unlock_plan (plan_of steps) self = (Ok report, self') /\
    success report = true /\
    final_status report = "unlocked" /\
    steps_executed report = length steps /\
    clock self' = clock self + length steps /\
    shipped random self'.
Proof.
  intros Hshipped Hknown.
  destruct (shipped_for_each random steps self [] Hshipped Hknown)
    as (results & self' & Hloop & Hpass & Hlen & Hshipped' & Hclock); [constructor|].
  rewrite (execute_unlock_plan_unfold _ _ _ (steps_of_plan_of steps)), Hloop.
  rewrite (all_success_passes _ Hpass).
  eexists _, _. split; [reflexivity|]. cbn [success final_status steps_executed].
  split; [reflexivity|]. split; [reflexivity|].
  split; [by rewrite Hlen|]. by split.
Qed.

Lemma known_steps_on_shipped_workers_witness :
  exists report self',
    execute_unlock_plan
      (plan_of [step_of_type "pattern_analysis"; step_of_type "security_bypass"])
      (initialize (fun _ => 7%Z) DeepAgents_init) = (Ok report, self') /\
    success report = true /\
    steps_executed report = 2.
Proof.
  destruct (known_steps_on_shipped_workers_succeed (fun _ => 7%Z)
              (initialize (fun _ => 7%Z) DeepAgents_init)
              [step_of_type "pattern_analysis"; step_of_type "security_bypass"])
    as (report & self' & Hrun & Hsuccess & _ & Hcount & _).
  - apply initialize_shipped.
  - repeat constructor; eexists _, _;
      (split; [reflexivity|]); (split; [reflexivity|]);
      apply (bool_decide_unpack _); vm_compute; exact I.
  - exists report, self'. split; [exact Hrun|]. by split.
Defined.

(** X24.  What decides a retry is the "error" entry of the failed result
    alone.  When it is a string, the step is dispatched once more exactly
    when the text, in lower case, contains "usb" or "vulnerability", and
    the retry is recorded under "retry_result" (or its exception ends the
    run); a result without an "error" entry counts as the empty text and is
    not retried; an "error" entry that is no string makes the run raise
    [AttributeError]. *)
Theorem retry_decided_by_error_entry
    (step : Value) (results : list Value) (self self1 : DeepAgents)
    (d : gmap string Value) :
  _execute_step step self = (Ok (VDict d), self1) ->
  failed (VDict d) = Ok true ->
  loop_body step results self =
    match dict_get d "error" (VStr "") with
    | VStr message =>
        if recoverable_text message then
          match _execute_step step self1 with
          | (Ok retry, self2) =>
              (Ok (results ++ [VDict d; retry_entry retry])%list, self2)
          | (Raise e, self2) => (Raise e, self2)
          end
        else (Ok (results ++ [VDict d])%list, self1)
    | _ => (Raise AttributeError, self1)
    end.
Proof.
  intros Hfirst Hfailed.
  rewrite (loop_body_after_first_attempt _ _ _ _ _ Hfirst), Hfailed.
  unfold _trigger_self_healing.
  destruct (dict_get d "error" (VStr "")) as [| | |message| |] eqn:Herror;
    try (unfold _analyze_failure, get; rewrite Herror; reflexivity).
  rewrite (analyze_failure_of_message step (VDict d) message)
    by (unfold get; by rewrite Herror).
  unfold recoverable_text, mbind, Outcome_bind, bind.
  destruct (contains "usb" (lower message));
    destruct (contains "vulnerability" (lower message));
    cbn [orb can_recover recovered _execute_recovery_plan];
    try reflexivity;
    destruct (_execute_step step self1) as [[retry|e] self2];
    try reflexivity;
    by rewrite <- app_assoc.
Qed.

Lemma retry_decided_by_error_entry_witness :
  let result := VDict (<["success" := VBool false]> (<["error" := VNone]> ∅)) in
  (loop_body (step_of_type "usb_communication") [] (pool_of (answering_agent result))).1 =
    Raise AttributeError.
Proof.
  intros result.
  rewrite (retry_decided_by_error_entry (step_of_type "usb_communication") []
             (pool_of (answering_agent result)) _ _ eq_refl eq_refl).
  reflexivity.
Defined.

End RunFacts.
